(** * Log-search facade: request translation, time windows and heartbeat

    A shallow embedding of the two Flask services of the repository,
    [opsight.py] and [logs_querier.py]: their request handlers
    ([search_logs], [search_logs_with_timerange], [submit_logs]), the
    [DatadogLogsClient] they share, and the [periodic_logger] loop.

    Conventions of the embedding.
    - A parsed JSON body is a value of [json]; a Python [dict] is an
      association list in insertion order (lookup takes the first binding,
      assignment replaces in place or appends).  JSON numbers are integers.
    - A [datetime] counts microseconds on the wall clock since
      0001-01-01T00:00:00 and optionally carries a UTC offset; a
      [timedelta] is a number of microseconds.
    - Handlers run in the monad [M]: a trace of [event]s together with a
      value or a raised exception.  [logger] calls inside the request
      handlers and the client leave no trace (the logging module reports
      its own handler errors on stderr and returns); the heartbeat loop
      models its [logger], [print] and [time.sleep] calls as steps of their
      own, each of which may raise.
    - What belongs to the interpreter and not to the repository (the text
      of built-in exception messages, [repr] of containers,
      [datetime.fromisoformat]) is collected in the record [PyRuntime]. *)

From Stdlib Require Import ZArith List String Ascii Bool Lia.
From Stdlib Require Import DecimalString.
Import ListNotations.

Local Open Scope list_scope.
Local Open Scope string_scope.
Local Open Scope Z_scope.

(** ** JSON values and Python's view of them *)

#[warnings="-register-all"]
Inductive json : Type :=
| JNull
| JBool (b : bool)
| JInt (z : Z)
| JStr (s : string)
| JList (l : list json)
| JObj (kvs : list (string * json)).

Definition dict : Type := list (string * json).

(** [k in d] and [d.get(k)] on a dict. *)
Fixpoint dict_get (d : dict) (k : string) : option json :=
  match d with
  | [] => None
  | (k', v) :: r => if String.eqb k' k then Some v else dict_get r k
  end.

Definition dict_has (d : dict) (k : string) : bool :=
  match dict_get d k with Some _ => true | None => false end.

(** [d[k] = v]: an existing key keeps its position, a new one goes last. *)
Fixpoint dict_set (d : dict) (k : string) (v : json) : dict :=
  match d with
  | [] => [(k, v)]
  | (k', v') :: r =>
      if String.eqb k' k then (k, v) :: r else (k', v') :: dict_set r k v
  end.

(** [bool(v)]. *)
Definition py_truthy (v : json) : bool :=
  match v with
  | JNull => false
  | JBool b => b
  | JInt z => negb (z =? 0)
  | JStr s => negb (String.eqb s "")
  | JList l => match l with [] => false | _ => true end
  | JObj d => match d with [] => false | _ => true end
  end.

(** [all([...])]. *)
Definition py_all (vs : list json) : bool := forallb py_truthy vs.

Definition type_name (v : json) : string :=
  match v with
  | JNull => "NoneType"
  | JBool _ => "bool"
  | JInt _ => "int"
  | JStr _ => "str"
  | JList _ => "list"
  | JObj _ => "dict"
  end.

(** ** Exceptions *)

Inductive builtin_kind : Type :=
| AttributeError
| TypeError
| ValueError
| KeyError
| OverflowError.

Inductive exn : Type :=
| Builtin (k : builtin_kind) (operand : string)
| RequestException (status_code : option Z)
| PlainException (msg : string).

Definition is_ValueError (e : exn) : bool :=
  match e with Builtin ValueError _ => true | _ => false end.

Definition is_RequestException (e : exn) : bool :=
  match e with RequestException _ => true | _ => false end.

(** ** Dates and times *)

Record datetime : Type := mkDatetime {
  wall : Z;
  utcoffset : option Z
}.

Definition timedelta : Type := Z.

Definition td_seconds (n : Z) : timedelta := n * 1000000.
Definition td_minutes (n : Z) : timedelta := td_seconds (n * 60).
Definition td_hours (n : Z) : timedelta := td_minutes (n * 60).
Definition td_days (n : Z) : timedelta := td_hours (n * 24).

Definition us_per_day : Z := 86400000000.

(** [datetime.max] is 9999-12-31T23:59:59.999999, day 3652059 of the
    proleptic Gregorian calendar. *)
Definition max_wall : Z := 3652059 * us_per_day - 1.

Definition in_range (w : Z) : bool := (0 <=? w) && (w <=? max_wall).

(** [datetime.utcnow()]: a naive datetime read from the clock. *)
Definition utcnow (clock : Z) : datetime := mkDatetime clock None.

(** [dt + td] and [dt - td]: the offset is kept, a result outside
    [datetime.min .. datetime.max] raises [OverflowError]. *)
Definition dt_add (dt : datetime) (td : timedelta) : exn + datetime :=
  let w := wall dt + td in
  if in_range w then inr (mkDatetime w (utcoffset dt))
  else inl (Builtin OverflowError "date value out of range").

Definition dt_sub (dt : datetime) (td : timedelta) : exn + datetime :=
  dt_add dt (- td).

(** The instant a datetime denotes, in microseconds of UTC; a naive
    datetime is read as UTC, as the services do with [utcnow]. *)
Definition instant (dt : datetime) : Z :=
  match utcoffset dt with
  | None => wall dt
  | Some off => wall dt - td_seconds off
  end.

(** Civil date of a day count since 0001-01-01 (day 0). *)
Definition civil_of_days (d0 : Z) : Z * Z * Z :=
  let z := d0 + 306 in
  let era := z / 146097 in
  let doe := z - era * 146097 in
  let yoe := (doe - doe / 1460 + doe / 36524 - doe / 146096) / 365 in
  let doy := doe - (365 * yoe + yoe / 4 - yoe / 100) in
  let mp := (5 * doy + 2) / 153 in
  let d := doy - (153 * mp + 2) / 5 + 1 in
  let m := if mp <? 10 then mp + 3 else mp - 9 in
  let y := yoe + era * 400 + (if m <=? 2 then 1 else 0) in
  (y, m, d).

Definition digit_char (d : Z) : ascii := ascii_of_nat (48 + Z.to_nat d).

(** The [w] low-order decimal digits of [n], as [%0wd] prints a number
    that fits. *)
Fixpoint zpad (w : nat) (n : Z) : string :=
  match w with
  | O => ""
  | S w' => zpad w' (n / 10) ++ String (digit_char (n mod 10)) ""
  end.

Definition format_offset (off : Z) : string :=
  let sign := if off <? 0 then "-" else "+" in
  let a := Z.abs off in
  let hh := a / 3600 in
  let mm := (a mod 3600) / 60 in
  let ss := a mod 60 in
  sign ++ zpad 2 hh ++ ":" ++ zpad 2 mm
       ++ (if ss =? 0 then "" else ":" ++ zpad 2 ss).

(** [dt.isoformat()]. *)
Definition isoformat (dt : datetime) : string :=
  let days := wall dt / us_per_day in
  let rest := wall dt mod us_per_day in
  let '(y, m, d) := civil_of_days days in
  let secs := rest / 1000000 in
  let us := rest mod 1000000 in
  zpad 4 y ++ "-" ++ zpad 2 m ++ "-" ++ zpad 2 d ++ "T"
    ++ zpad 2 (secs / 3600) ++ ":" ++ zpad 2 ((secs mod 3600) / 60) ++ ":"
    ++ zpad 2 (secs mod 60)
    ++ (if us =? 0 then "" else "." ++ zpad 6 us)
    ++ match utcoffset dt with
       | None => ""
       | Some off => format_offset off
       end.

(** Days since 0001-01-01 of a civil date, the inverse of
    [civil_of_days]; used to write clock readings legibly. *)
Definition days_of_civil (y m d : Z) : Z :=
  let y' := if m <=? 2 then y - 1 else y in
  let era := y' / 400 in
  let yoe := y' - era * 400 in
  let mp := if m <=? 2 then m + 9 else m - 3 in
  let doy := (153 * mp + 2) / 5 + d - 1 in
  let doe := yoe * 365 + yoe / 4 - yoe / 100 + doy in
  era * 146097 + doe - 306.

Definition clock_at (y m d hh mi ss : Z) : Z :=
  days_of_civil y m d * us_per_day + td_seconds (hh * 3600 + mi * 60 + ss).

(** ** The interpreter and the network *)

(** The parts of the Python runtime the handlers call but the repository
    does not define. *)
Record PyRuntime : Type := {
  (** [str(e)] for an exception raised by the interpreter or by
      [requests]. *)
  exn_text : exn -> string;
  (** [str(v)] for a list or a dict. *)
  container_repr : json -> string;
  (** [datetime.fromisoformat]; [None] stands for its [ValueError]. *)
  fromisoformat : string -> option datetime
}.

(** What [requests.post] comes back with: a transport failure, or a
    response with its status code and the outcome of [response.json()]. *)
Inductive http_outcome : Type :=
| TransportFailure
| Response (status_code : Z) (payload : exn + json).

Record World : Type := {
  runtime : PyRuntime;
  DD_SITE : string;
  LOG_INTERVAL_SECONDS : Z;
  http_post : string -> json -> http_outcome
}.

(** [str(e)]: an [Exception(msg)] built by the code prints its message. *)
Definition str_exn (rt : PyRuntime) (e : exn) : string :=
  match e with
  | PlainException m => m
  | _ => exn_text rt e
  end.

(** [str(v)], as an f-string interpolates a value. *)
Definition py_str (rt : PyRuntime) (v : json) : string :=
  match v with
  | JStr s => s
  | JInt z => NilZero.string_of_int (Z.to_int z)
  | JBool true => "True"
  | JBool false => "False"
  | JNull => "None"
  | _ => container_repr rt v
  end.

(** [s.replace('Z', '+00:00')]: every occurrence is replaced. *)
Fixpoint replace_Z (s : string) : string :=
  match s with
  | EmptyString => EmptyString
  | String c r =>
      if Ascii.eqb c "Z" then "+00:00" ++ replace_Z r
      else String c (replace_Z r)
  end.

(** ** Outbound events and the handler monad *)

Inductive event : Type :=
| ClientSearch (query : json) (start_time end_time : string) (limit : json)
| ClientSubmit (log_data : json)
| HttpPost (url : string) (payload : json)
| LoggerCall (level message : string)
| Print (text : string)
| Sleep (seconds : Z).

Definition M (A : Type) : Type := list event * (exn + A).

Definition ret {A} (a : A) : M A := ([], inr a).
Definition raise {A} (e : exn) : M A := ([], inl e).
Definition emit (ev : event) : M unit := ([ev], inr tt).

Definition bind {A B} (m : M A) (f : A -> M B) : M B :=
  match m with
  | (t, inl e) => (t, inl e)
  | (t, inr a) => let '(t', r) := f a in ((t ++ t')%list, r)
  end.

Definition lift {A} (r : exn + A) : M A := ([], r).

(** [try: m  except <class>: h], for the exception classes [cls] selects. *)
Definition try_except {A} (m : M A) (cls : exn -> bool) (h : exn -> M A) : M A :=
  match m with
  | (t, inl e) =>
      if cls e then let '(t', r) := h e in ((t ++ t')%list, r) else (t, inl e)
  | ok => ok
  end.

Definition any_Exception (e : exn) : bool := true.

Notation "x <- c1 ;; c2" := (bind c1 (fun x => c2))
  (at level 61, c1 at next level, right associativity).
Notation "c1 ;;; c2" := (bind c1 (fun _ => c2))
  (at level 61, right associativity).

Definition trace {A} (m : M A) : list event := fst m.
Definition outcome {A} (m : M A) : exn + A := snd m.

(** ** Responses *)

Record response : Type := mkResponse {
  status : Z;
  body : json
}.

(** [jsonify({"error": msg}), code]. *)
Definition error_response (code : Z) (msg : string) : response :=
  mkResponse code (JObj [("error", JStr msg)]).

(** ** Python operations on request data *)

Definition attribute_error {A} (v : json) (attr : string) : M A :=
  raise (Builtin AttributeError (type_name v ++ "." ++ attr)).

(** [data.get(k, default)]. *)
Definition py_get (data : json) (k : string) (default : json) : M json :=
  match data with
  | JObj d => ret (match dict_get d k with Some v => v | None => default end)
  | _ => attribute_error data "get"
  end.

(** [k in data] for a string [k]: key of a dict, element of a list,
    substring of a string; other values are not iterable. *)
Definition py_in (k : string) (data : json) : M bool :=
  match data with
  | JObj d => ret (dict_has d k)
  | JList l =>
      ret (existsb (fun v => match v with
                             | JStr s => String.eqb s k
                             | _ => false
                             end) l)
  | JStr s => ret (match index 0 k s with Some _ => true | None => false end)
  | _ => raise (Builtin TypeError (type_name data ++ " is not iterable"))
  end.

(** [data[k]] for a string [k]. *)
Definition py_item (data : json) (k : string) : M json :=
  match data with
  | JObj d =>
      match dict_get d k with
      | Some v => ret v
      | None => raise (Builtin KeyError k)
      end
  | _ => raise (Builtin TypeError (type_name data ++ " indices"))
  end.

(** [if not isinstance(v, list): v = [v]]. *)
Definition as_list (v : json) : list json :=
  match v with
  | JList l => l
  | _ => [v]
  end.

(** [min(limit, cap)]: the first argument unless the second is smaller;
    a bool compares as 0 or 1, other values do not compare with an int. *)
Definition py_min (limit : json) (cap : Z) : M json :=
  match limit with
  | JInt z => ret (if cap <? z then JInt cap else JInt z)
  | JBool b => ret (if cap <? (if b then 1 else 0) then JInt cap else JBool b)
  | _ => raise (Builtin TypeError ("'<' int and " ++ type_name limit))
  end.

(** [len(v)]. *)
Definition py_len (v : json) : M Z :=
  match v with
  | JStr s => ret (Z.of_nat (String.length s))
  | JList l => ret (Z.of_nat (List.length l))
  | JObj d => ret (Z.of_nat (List.length d))
  | _ => raise (Builtin TypeError ("len of " ++ type_name v))
  end.

(** [len(resp.get(k, []))]. *)
Definition py_len_get (resp : json) (k : string) : M Z :=
  v <- py_get resp k (JList []) ;; py_len v.

(** [s.replace('Z', '+00:00')] on a request value: only a string has the
    method. *)
Definition py_replace (v : json) : M string :=
  match v with
  | JStr s => ret (replace_Z s)
  | _ => attribute_error v "replace"
  end.

(** The relative ranges, in the order the handlers list them. *)
Definition timerange_map : list (string * timedelta) :=
  [("1h", td_hours 1); ("30m", td_minutes 30); ("1d", td_days 1);
   ("7d", td_days 7); ("15m", td_minutes 15); ("4h", td_hours 4);
   ("24h", td_hours 24)].

Fixpoint assoc {A} (l : list (string * A)) (k : string) : option A :=
  match l with
  | [] => None
  | (k', v) :: r => if String.eqb k' k then Some v else assoc r k
  end.

(** [timerange_map.get(v)] behind [v not in timerange_map]: a list or a
    dict is unhashable, any other non-string is simply not a key. *)
Definition timerange_lookup (v : json) : M (option timedelta) :=
  match v with
  | JStr s => ret (assoc timerange_map s)
  | JList _ | JObj _ =>
      raise (Builtin TypeError ("unhashable type: " ++ type_name v))
  | _ => ret None
  end.

(** [str(list(m.keys()))] for keys that need no escaping. *)
Definition repr_keys (ks : list string) : string :=
  "[" ++ String.concat ", " (map (fun k => "'" ++ k ++ "'") ks) ++ "]".

Definition invalid_timerange_msg : string :=
  "Invalid timerange. Supported values: " ++ repr_keys (map fst timerange_map).

(** A response [raise_for_status] lets through. *)
Definition status_ok (code : Z) : bool := negb ((400 <=? code) && (code <? 600)).

(** ** The heartbeat's environment *)

(** The calls of one iteration of [periodic_logger] that are no backend
    traffic. *)
Inductive step_id : Type :=
| PrintAttempt
| PrintSuccess
| PrintFailure
| LogSubmitError
| LogStatus
| LogLoopError.

(** What one iteration meets: the host name or the exception [os.uname]
    raises, the network as it answers during this iteration, the clock,
    and for each [print] or [logger] call the exception it raises, if
    any. *)
Record tick_env : Type := {
  uname_nodename : exn + string;
  tick_http : string -> json -> http_outcome;
  tick_clock : nat -> Z;
  step_fails : step_id -> option exn
}.

Definition step (env : tick_env) (s : step_id) (ev : event) : M unit :=
  match step_fails env s with
  | Some e => raise e
  | None => emit ev
  end.

(** [time.sleep(secs)]: a negative length is a [ValueError]. *)
Definition time_sleep (secs : Z) : M unit :=
  if secs <? 0 then raise (Builtin ValueError "sleep length must be non-negative")
  else emit (Sleep secs).

Definition during (w : World) (env : tick_env) : World :=
  {| runtime := runtime w;
     DD_SITE := DD_SITE w;
     LOG_INTERVAL_SECONDS := LOG_INTERVAL_SECONDS w;
     http_post := tick_http env |}.

(** ** Log records *)

(** What [JsonFormatter.format] reads of a [logging.LogRecord]: the level
    name, the logger's name, the text of [getMessage()], the attribute
    [extra] when the record has one (a dict; no logger call of the
    repository creates it), the other entries of [record.__dict__] in
    order (the standard attributes and the fields passed through
    [extra=]), and the text of [formatException(record.exc_info)] when
    there is exception information. *)
Record log_record : Type := {
  levelname : string;
  logger_name : string;
  getMessage : string;
  extra_attr : option dict;
  attributes : dict;
  exc_text : option string
}.

(** [d.update(other)] for a dict [other]. *)
Definition update_dict (d other : dict) : dict :=
  fold_left (fun acc kv => dict_set acc (fst kv) (snd kv)) other d.

(** ** opsight.py *)

Module Opsight.
Section Service.

Variable w : World.
Let rt := runtime w.

(** [DatadogLogsClient.search_logs]: logs search API v2. *)
Definition client_search_logs (query : json) (start_time end_time : string)
    (limit : json) : M json :=
  emit (ClientSearch query start_time end_time limit) ;;;
  let url := "https://api." ++ DD_SITE w ++ "/api/v2/logs/events/search" in
  page_limit <- py_min limit 1000 ;;
  let payload :=
    JObj [("filter", JObj [("query", query);
                           ("from", JStr start_time);
                           ("to", JStr end_time)]);
          ("sort", JStr "-timestamp");
          ("page", JObj [("limit", page_limit)])] in
  try_except
    (emit (HttpPost url payload) ;;;
     match http_post w url payload with
     | TransportFailure => raise (RequestException None)
     | Response code parsed =>
         if status_ok code then
           response_data <- lift parsed ;;
           _ <- py_len_get response_data "data" ;;
           ret response_data
         else raise (RequestException (Some code))
     end)
    is_RequestException
    (fun e => raise (PlainException
                       ("Error querying Datadog logs: " ++ str_exn rt e))).

(** What [submit_log] is called with: one entry (the heartbeat) or a list
    of entries (the handler, after it checked each one is a dict). *)
Inductive log_data : Type :=
| OneLog (log : dict)
| LogList (logs : list dict).

Definition json_of_log_data (ld : log_data) : json :=
  match ld with
  | OneLog d => JObj d
  | LogList l => JList (map JObj l)
  end.

(** The loop that stamps entries without a [timestamp]: every stamp is a
    fresh [utcnow()], the [n]-th reading of the clock. *)
Fixpoint stamp_logs (clock : nat -> Z) (n : nat) (logs : list dict) : list dict :=
  match logs with
  | [] => []
  | log :: r =>
      if dict_has log "timestamp" then log :: stamp_logs clock n r
      else dict_set log "timestamp"
             (JStr (isoformat (utcnow (clock n)) ++ "Z"))
           :: stamp_logs clock (S n) r
  end.

(** [DatadogLogsClient.submit_log]: logs intake API. *)
Definition client_submit_log (clock : nat -> Z) (ld : log_data) : M bool :=
  emit (ClientSubmit (json_of_log_data ld)) ;;;
  let url := "https://http-intake.logs." ++ DD_SITE w ++ "/api/v2/logs" in
  let logs := match ld with OneLog d => [d] | LogList l => l end in
  let logs := stamp_logs clock 0 logs in
  try_except
    (emit (HttpPost url (JList (map JObj logs))) ;;;
     match http_post w url (JList (map JObj logs)) with
     | TransportFailure => raise (RequestException None)
     | Response code _ =>
         if status_ok code then ret true
         else raise (RequestException (Some code))
     end)
    is_RequestException
    (fun e => raise (PlainException
                       ("Error submitting logs to Datadog: " ++ str_exn rt e))).

(** [POST /logs/search]: raw query, absolute or defaulted window. *)
Definition search_logs (body_json : json) (clock : Z) : M response :=
  try_except
    (let data := if py_truthy body_json then body_json else JObj [] in
     query <- py_get data "query" (JStr "datadog-agent") ;;
     limit <- py_get data "limit" (JInt 5) ;;
     has_start <- py_in "start_time" data ;;
     has_end <- py_in "end_time" data ;;
     resolved <-
       (if negb has_start || negb has_end then
          let now := utcnow clock in
          start_time <- lift (dt_sub now (td_hours 1)) ;;
          end_time <- lift (dt_add start_time (td_minutes 5)) ;;
          ret (inr (isoformat start_time ++ "Z", isoformat end_time ++ "Z"))
        else
          start_time <- py_get data "start_time" JNull ;;
          end_time <- py_get data "end_time" JNull ;;
          try_except
            (s <- py_replace start_time ;;
             start_dt <- match fromisoformat rt s with
                         | Some dt => ret dt
                         | None => raise (Builtin ValueError s)
                         end ;;
             e <- py_replace end_time ;;
             end_dt <- match fromisoformat rt e with
                       | Some dt => ret dt
                       | None => raise (Builtin ValueError e)
                       end ;;
             ret (inr (isoformat start_dt ++ "Z", isoformat end_dt ++ "Z")))
            is_ValueError
            (fun e =>
               ret (inl (error_response 400
                  ("Invalid timestamp format. Use ISO format (e.g., '2024-01-01T00:00:00Z'): "
                     ++ str_exn rt e))))) ;;
     match resolved with
     | inl early => ret early
     | inr (start_iso, end_iso) =>
         try_except
           (logs_response <- client_search_logs query start_iso end_iso limit ;;
            let response_data :=
              JObj [("success", JBool true);
                    ("query", query);
                    ("time_range", JObj [("start", JStr start_iso);
                                         ("end", JStr end_iso)]);
                    ("data", logs_response)] in
            _ <- py_len_get logs_response "data" ;;
            ret (mkResponse 200 response_data))
           any_Exception
           (fun e => ret (error_response 500
                            ("Failed to query Datadog: " ++ str_exn rt e)))
     end)
    any_Exception
    (fun e => ret (error_response 500
                     ("Internal server error: " ++ str_exn rt e))).

(** [POST /logs/search/timerange]: service query, relative window. *)
Definition search_logs_with_timerange (data : json) (clock : Z) : M response :=
  try_except
    (if negb (py_truthy data) then
       ret (error_response 400 "JSON payload required")
     else
       service <- py_get data "service" JNull ;;
       timerange <- py_get data "timerange" JNull ;;
       if negb (py_all [service; timerange]) then
         ret (error_response 400
                "Missing required parameters: service, timerange")
       else
         let now := utcnow clock in
         found <- timerange_lookup timerange ;;
         match found with
         | None => ret (error_response 400 invalid_timerange_msg)
         | Some delta =>
             start_time <- lift (dt_sub now delta) ;;
             let end_time := now in
             limit <- py_get data "limit" (JInt 50) ;;
             additional_query <- py_get data "query" (JStr "") ;;
             let query := "service:" ++ py_str rt service in
             let query :=
               if py_truthy additional_query
               then query ++ " " ++ py_str rt additional_query
               else query in
             let start_iso := isoformat start_time in
             let end_iso := isoformat end_time in
             try_except
               (logs_response <-
                  client_search_logs (JStr query) start_iso end_iso limit ;;
                let response_data :=
                  JObj [("success", JBool true);
                        ("query", JStr query);
                        ("timerange", timerange);
                        ("time_range", JObj [("start", JStr start_iso);
                                             ("end", JStr end_iso)]);
                        ("data", logs_response)] in
                _ <- py_len_get logs_response "data" ;;
                ret (mkResponse 200 response_data))
               any_Exception
               (fun e => ret (error_response 500
                                ("Failed to query Datadog: " ++ str_exn rt e)))
         end)
    any_Exception
    (fun e => ret (error_response 500
                     ("Internal server error: " ++ str_exn rt e))).

(** [log['service'] != 'opsight'] is false for the string ["opsight"]
    only. *)
Definition is_opsight (v : json) : bool :=
  match v with
  | JStr s => String.eqb s "opsight"
  | _ => false
  end.

(** The namespacing of one entry, at the end of the loop body of
    [submit_logs]. *)
Definition namespace_service (log : dict) : dict :=
  match dict_get log "service" with
  | None => dict_set log "service" (JStr "opsight")
  | Some v =>
      if negb (is_opsight v)
      then dict_set log "service" (JStr ("opsight." ++ py_str rt v))
      else log
  end.

(** The loop of [submit_logs] over the entries: it returns early with a
    400 at the first entry that is not a dict or has no [message], and
    otherwise leaves every entry namespaced. *)
Fixpoint process_logs (logs : list json) : response + list dict :=
  match logs with
  | [] => inr []
  | JObj log :: r =>
      if negb (dict_has log "message") then
        inl (error_response 400
               "Each log entry must contain a 'message' field")
      else
        match process_logs r with
        | inl early => inl early
        | inr done => inr (namespace_service log :: done)
        end
  | _ :: _ => inl (error_response 400 "Each log entry must be a JSON object")
  end.

(** [POST /logs/submit]. *)
Definition submit_logs (data : json) (clock : nat -> Z) : M response :=
  try_except
    (missing <- (if negb (py_truthy data) then ret true
                 else present <- py_in "logs" data ;; ret (negb present)) ;;
     if (missing : bool) then
       ret (error_response 400 "JSON payload with 'logs' array required")
     else
       logs <- py_item data "logs" ;;
       let logs := as_list logs in
       match process_logs logs with
       | inl early => ret early
       | inr logs =>
           try_except
             (_ <- client_submit_log clock (LogList logs) ;;
              ret (mkResponse 200
                     (JObj [("success", JBool true);
                            ("message",
                             JStr ("Successfully submitted "
                                     ++ py_str rt (JInt (Z.of_nat (List.length logs)))
                                     ++ " log(s)"))])))
             any_Exception
             (fun e => ret (error_response 500
                              ("Failed to submit logs to Datadog: "
                                 ++ str_exn rt e)))
       end)
    any_Exception
    (fun e => ret (error_response 500
                     ("Internal server error: " ++ str_exn rt e))).

End Service.

(** The [try] block of one iteration of [periodic_logger].  [submit_log]
    stamps [status_log] in place, so the entry logged locally afterwards
    carries the timestamp too; the local record is kept as its message. *)
Definition tick_body (w : World) (env : tick_env) : M unit :=
  hostname <- lift (uname_nodename env) ;;
  let status_log : dict :=
    [("message", JStr "Opsight periodic status check");
     ("service", JStr "opsight");
     ("status", JStr "info");
     ("service_status", JStr "healthy");
     ("uptime_check", JBool true);
     ("endpoints_available",
      JList [JStr "health"; JStr "logs/search"; JStr "logs/search/timerange";
             JStr "logs/submit"]);
     ("dd_site", JStr (DD_SITE w));
     ("log_type", JStr "periodic_status");
     ("ddsource", JStr "opsight");
     ("ddtags", JStr "env:staging,monitor_type:health,service:opsight");
     ("hostname", JStr hostname)] in
  try_except
    (step env PrintAttempt (Print "Attempting periodic log submission...") ;;;
     _ <- client_submit_log (during w env) (tick_clock env) (OneLog status_log) ;;
     step env PrintSuccess (Print "Periodic log submission successful"))
    any_Exception
    (fun e =>
       step env PrintFailure
         (Print ("Periodic log submission failed: " ++ str_exn (runtime w) e)) ;;;
       step env LogSubmitError
         (LoggerCall "error" "Failed to submit periodic status log to Datadog")) ;;;
  step env LogStatus (LoggerCall "info" "Periodic status check") ;;;
  time_sleep (LOG_INTERVAL_SECONDS w).

(** One iteration of [while True]: the [try] block and its handler.  An
    exception that leaves this computation leaves the loop. *)
Definition periodic_tick (w : World) (env : tick_env) : M unit :=
  try_except (tick_body w env) any_Exception
    (fun e =>
       step env LogLoopError (LoggerCall "error" "Error in periodic logger") ;;;
       time_sleep (LOG_INTERVAL_SECONDS w)).

(** [periodic_logger], unrolled over the environments of its first
    iterations: [inr tt] when the loop is still running after them. *)
Fixpoint periodic_logger (w : World) (envs : list tick_env) : M unit :=
  match envs with
  | [] => ret tt
  | env :: later => periodic_tick w env ;;; periodic_logger w later
  end.

(** The attribute names the loop of [JsonFormatter.format] skips. *)
Definition reserved_attributes : list string :=
  ["name"; "msg"; "args"; "levelname"; "levelno"; "pathname"; "filename";
   "module"; "lineno"; "funcName"; "created"; "msecs"; "relativeCreated";
   "thread"; "threadName"; "processName"; "process"; "message"; "exc_info";
   "exc_text"; "stack_info"; "extra"].

Definition is_reserved (key : string) : bool :=
  existsb (String.eqb key) reserved_attributes.

(** [JsonFormatter.format], up to [json.dumps]: the entry that is
    written, as a JSON object. *)
Definition format (clock : Z) (record : log_record) : dict :=
  let log_entry :=
    [("timestamp", JStr (isoformat (utcnow clock) ++ "Z"));
     ("level", JStr (levelname record));
     ("logger", JStr (logger_name record));
     ("message", JStr (getMessage record));
     ("service", JStr "opsight");
     ("version", JStr "1.0.0")] in
  let log_entry :=
    match extra_attr record with
    | Some extra =>
        if py_truthy (JObj extra) then update_dict log_entry extra
        else log_entry
    | None => log_entry
    end in
  let log_entry :=
    fold_left
      (fun acc kv =>
         if negb (is_reserved (fst kv)) then dict_set acc (fst kv) (snd kv)
         else acc)
      (attributes record) log_entry in
  match exc_text record with
  | Some text => dict_set log_entry "exception" (JStr text)
  | None => log_entry
  end.

End Opsight.

(** ** logs_querier.py *)

Module LogsQuerier.
Section Service.

Variable w : World.
Let rt := runtime w.

(** [DatadogLogsClient.search_logs]: logs query API v1; the limit goes
    into the payload as the caller gave it. *)
Definition client_search_logs (query : json) (start_time end_time : string)
    (limit : json) : M json :=
  emit (ClientSearch query start_time end_time limit) ;;;
  let url := "https://api." ++ DD_SITE w ++ "/api/v1/logs-queries/list" in
  let payload :=
    JObj [("query", query);
          ("time", JObj [("from", JStr start_time); ("to", JStr end_time)]);
          ("sort", JStr "timestamp");
          ("limit", limit)] in
  try_except
    (emit (HttpPost url payload) ;;;
     match http_post w url payload with
     | TransportFailure => raise (RequestException None)
     | Response code parsed =>
         if status_ok code then
           response_data <- lift parsed ;;
           _ <- py_len_get response_data "logs" ;;
           ret response_data
         else raise (RequestException (Some code))
     end)
    is_RequestException
    (fun e => raise (PlainException
                       ("Error querying Datadog logs: " ++ str_exn rt e))).

(** [POST /logs/search]: service query, absolute window. *)
Definition search_logs (data : json) : M response :=
  try_except
    (if negb (py_truthy data) then
       ret (error_response 400 "JSON payload required")
     else
       service <- py_get data "service" JNull ;;
       start_time <- py_get data "start_time" JNull ;;
       end_time <- py_get data "end_time" JNull ;;
       if negb (py_all [service; start_time; end_time]) then
         ret (error_response 400
                "Missing required parameters: service, start_time, end_time")
       else
         limit <- py_get data "limit" (JInt 50) ;;
         additional_query <- py_get data "query" (JStr "") ;;
         let query := "service:" ++ py_str rt service in
         let query :=
           if py_truthy additional_query
           then query ++ " " ++ py_str rt additional_query
           else query in
         resolved <-
           try_except
             (s <- py_replace start_time ;;
              start_dt <- match fromisoformat rt s with
                          | Some dt => ret dt
                          | None => raise (Builtin ValueError s)
                          end ;;
              e <- py_replace end_time ;;
              end_dt <- match fromisoformat rt e with
                        | Some dt => ret dt
                        | None => raise (Builtin ValueError e)
                        end ;;
              ret (inr (isoformat start_dt, isoformat end_dt)))
             is_ValueError
             (fun e =>
                ret (inl (error_response 400
                   ("Invalid timestamp format. Use ISO format (e.g., '2024-01-01T00:00:00Z'): "
                      ++ str_exn rt e)))) ;;
         match resolved with
         | inl early => ret early
         | inr (start_iso, end_iso) =>
             try_except
               (logs_response <-
                  client_search_logs (JStr query) start_iso end_iso limit ;;
                let response_data :=
                  JObj [("success", JBool true);
                        ("query", JStr query);
                        ("time_range", JObj [("start", JStr start_iso);
                                             ("end", JStr end_iso)]);
                        ("data", logs_response)] in
                _ <- py_len_get logs_response "logs" ;;
                ret (mkResponse 200 response_data))
               any_Exception
               (fun e => ret (error_response 500
                                ("Failed to query Datadog: " ++ str_exn rt e)))
         end)
    any_Exception
    (fun e => ret (error_response 500
                     ("Internal server error: " ++ str_exn rt e))).

(** [POST /logs/search/timerange]: service query, relative window. *)
Definition search_logs_with_timerange (data : json) (clock : Z) : M response :=
  try_except
    (if negb (py_truthy data) then
       ret (error_response 400 "JSON payload required")
     else
       service <- py_get data "service" JNull ;;
       timerange <- py_get data "timerange" JNull ;;
       if negb (py_all [service; timerange]) then
         ret (error_response 400
                "Missing required parameters: service, timerange")
       else
         let now := utcnow clock in
         found <- timerange_lookup timerange ;;
         match found with
         | None => ret (error_response 400 invalid_timerange_msg)
         | Some delta =>
             start_time <- lift (dt_sub now delta) ;;
             let end_time := now in
             limit <- py_get data "limit" (JInt 50) ;;
             additional_query <- py_get data "query" (JStr "") ;;
             let query := "service:" ++ py_str rt service in
             let query :=
               if py_truthy additional_query
               then query ++ " " ++ py_str rt additional_query
               else query in
             let start_iso := isoformat start_time in
             let end_iso := isoformat end_time in
             try_except
               (logs_response <-
                  client_search_logs (JStr query) start_iso end_iso limit ;;
                let response_data :=
                  JObj [("success", JBool true);
                        ("query", JStr query);
                        ("timerange", timerange);
                        ("time_range", JObj [("start", JStr start_iso);
                                             ("end", JStr end_iso)]);
                        ("data", logs_response)] in
                _ <- py_len_get logs_response "logs" ;;
                ret (mkResponse 200 response_data))
               any_Exception
               (fun e => ret (error_response 500
                                ("Failed to query Datadog: " ++ str_exn rt e)))
         end)
    any_Exception
    (fun e => ret (error_response 500
                     ("Internal server error: " ++ str_exn rt e))).

End Service.

(** One iteration of [periodic_logger]: the status record goes to the
    local log only. *)
Definition periodic_tick (w : World) (env : tick_env) : M unit :=
  try_except
    (step env LogStatus (LoggerCall "info" "Periodic status check") ;;;
     time_sleep (LOG_INTERVAL_SECONDS w))
    any_Exception
    (fun e =>
       step env LogLoopError (LoggerCall "error" "Error in periodic logger") ;;;
       time_sleep (LOG_INTERVAL_SECONDS w)).

Fixpoint periodic_logger (w : World) (envs : list tick_env) : M unit :=
  match envs with
  | [] => ret tt
  | env :: later => periodic_tick w env ;;; periodic_logger w later
  end.

End LogsQuerier.

(** ** cli.py *)

Module Cli.

(** The [click.Choice] of [--timerange]. *)
Definition timerange_choices : list string :=
  ["15m"; "30m"; "1h"; "4h"; "1d"; "7d"].

(** [if query: payload["query"] = query]; the option is [None] when it
    was not given. *)
Definition with_query (payload : dict) (query : option string) : dict :=
  match query with
  | Some q => if py_truthy (JStr q) then dict_set payload "query" (JStr q)
              else payload
  | None => payload
  end.

(** The body the [search] command posts to [/logs/search]. *)
Definition search_payload (service start_ end_ : string) (limit : Z)
    (query : option string) : dict :=
  with_query
    [("service", JStr service); ("start_time", JStr start_);
     ("end_time", JStr end_); ("limit", JInt limit)]
    query.

(** The body the [search-timerange] command posts to
    [/logs/search/timerange]. *)
Definition search_timerange_payload (service timerange : string) (limit : Z)
    (query : option string) : dict :=
  with_query
    [("service", JStr service); ("timerange", JStr timerange);
     ("limit", JInt limit)]
    query.

(** The body the [quick-search] command posts. *)
Definition quick_search_payload (service : string) : dict :=
  [("service", JStr service); ("timerange", JStr "1h"); ("limit", JInt 5)].



End Cli.

(** ** A reference world for examples *)

Definition two_digits (s : string) : option Z :=
  match s with
  | String a (String b EmptyString) =>
      let x := Z.of_nat (nat_of_ascii a) - 48 in
      let y := Z.of_nat (nat_of_ascii b) - 48 in
      if (0 <=? x) && (x <=? 9) && (0 <=? y) && (y <=? 9)
      then Some (10 * x + y) else None
  | _ => None
  end.

Definition sep_is (s : string) (i : nat) (c : ascii) : bool :=
  match get i s with Some c' => Ascii.eqb c c' | None => false end.

(** A parser for the two shapes [YYYY-MM-DDTHH:MM:SS] and
    [YYYY-MM-DDTHH:MM:SS+HH:MM] (or [-HH:MM]), on which every version of
    [datetime.fromisoformat] agrees; anything else is refused here. *)
Definition parse_iso_seconds (s : string) : option datetime :=
  let num i := two_digits (substring i 2 s) in
  let seps := sep_is s 4 "-" && sep_is s 7 "-" && sep_is s 10 "T"
              && sep_is s 13 ":" && sep_is s 16 ":" in
  match num 0%nat, num 2%nat, num 5%nat, num 8%nat,
        num 11%nat, num 14%nat, num 17%nat with
  | Some c, Some y, Some mo, Some d, Some h, Some mi, Some sec =>
      let year := 100 * c + y in
      let valid := seps && (1 <=? year) && (1 <=? mo) && (mo <=? 12)
                   && (1 <=? d) && (h <=? 23) && (mi <=? 59) && (sec <=? 59)
                   && (days_of_civil year mo d + 1
                       <=? days_of_civil (if mo =? 12 then year + 1 else year)
                                         (if mo =? 12 then 1 else mo + 1) 1) in
      let wall := clock_at year mo d h mi sec in
      if negb valid then None
      else if (String.length s =? 19)%nat then Some (mkDatetime wall None)
      else if (String.length s =? 25)%nat
                && (sep_is s 19 "+" || sep_is s 19 "-") && sep_is s 22 ":" then
        match num 20%nat, num 23%nat with
        | Some oh, Some om =>
            if (oh <=? 23) && (om <=? 59) then
              let off := oh * 3600 + om * 60 in
              Some (mkDatetime wall
                      (Some (if sep_is s 19 "-" then - off else off)))
            else None
        | _, _ => None
        end
      else None
  | _, _, _, _, _, _, _ => None
  end.

Definition ref_runtime : PyRuntime :=
  {| exn_text := fun e =>
       match e with
       | Builtin _ operand => operand
       | RequestException _ => "request failed"
       | PlainException m => m
       end;
     container_repr := fun _ => "[...]";
     fromisoformat := parse_iso_seconds |}.

(** A backend that answers every search with an empty page. *)
Definition quiet_backend (url : string) (payload : json) : http_outcome :=
  Response 200 (inr (JObj [("data", JList []); ("logs", JList [])])).

Definition failing_backend (url : string) (payload : json) : http_outcome :=
  TransportFailure.

Definition ref_world : World :=
  {| runtime := ref_runtime;
     DD_SITE := "datadoghq.com";
     LOG_INTERVAL_SECONDS := 30;
     http_post := quiet_backend |}.

(** ** Vocabulary of the properties *)

(** [m] begins by emitting [ev]. *)
Definition starts_with {A} (ev : event) (m : M A) : Prop :=
  exists rest, trace m = ev :: rest.

(** The enumeration as the specification lists it: 15m, 30m, 1h, 4h,
    24h or 1d, 7d, each with its duration. *)
Definition spec_ranges : list (string * timedelta) :=
  [("15m", td_minutes 15); ("30m", td_minutes 30); ("1h", td_hours 1);
   ("4h", td_hours 4); ("24h", td_days 1); ("1d", td_days 1);
   ("7d", td_days 7)].

Definition spec_duration (tok : string) : option timedelta :=
  assoc spec_ranges tok.

Definition missing_timerange_params : response :=
  error_response 400 "Missing required parameters: service, timerange".

Definition missing_absolute_params : response :=
  error_response 400
    "Missing required parameters: service, start_time, end_time".

(** The token a request names, when it names one as a string. *)
Definition requested_token (data : json) : option string :=
  match data with
  | JObj d =>
      match dict_get d "timerange" with
      | Some (JStr tok) => Some tok
      | _ => None
      end
  | _ => None
  end.

Definition names_known_range (data : json) : bool :=
  match requested_token data with
  | Some tok => match spec_duration tok with Some _ => true | None => false end
  | None => false
  end.

(** The claim C2 as the specification words it: every token outside the
    enumeration draws the invalid-timerange answer. *)
Definition unknown_token_always_invalid_timerange : Prop :=
  forall (w : World) (d : dict) (clock : Z) (service : json) (tok : string),
    dict_get d "service" = Some service ->
    py_truthy service = true ->
    dict_get d "timerange" = Some (JStr tok) ->
    spec_duration tok = None ->
    Opsight.search_logs_with_timerange w (JObj d) clock
    = ([], inr (error_response 400 invalid_timerange_msg)).

(** A required parameter sent as the empty string, or not sent at all. *)
Definition blank_or_absent (d : dict) (k : string) : Prop :=
  dict_get d k = Some (JStr "") \/ dict_get d k = None.

(** The body of the v2 search request. *)
Definition v2_payload (query : json) (start_time end_time : string)
    (page_limit : json) : json :=
  JObj [("filter", JObj [("query", query);
                         ("from", JStr start_time);
                         ("to", JStr end_time)]);
        ("sort", JStr "-timestamp");
        ("page", JObj [("limit", page_limit)])].

Definition v2_search_url (w : World) : string :=
  "https://api." ++ DD_SITE w ++ "/api/v2/logs/events/search".


(** The page limit an outbound search request carries: [page.limit] in
    the v2 body, [limit] in the v1 body. *)
Definition transmitted_limit (ev : event) : option json :=
  match ev with
  | HttpPost _ (JObj payload) =>
      match dict_get payload "page" with
      | Some (JObj page) => dict_get page "limit"
      | _ => dict_get payload "limit"
      end
  | _ => None
  end.

(** The number a limit stands for; Python's [True] and [False] are the
    integers 1 and 0. *)
Definition limit_value (l : json) : option Z :=
  match l with
  | JInt z => Some z
  | JBool b => Some (if b then 1 else 0)
  | _ => None
  end.



Definition last_char_is (s : string) (back : nat) (c : ascii) : bool :=
  (back <=? String.length s)%nat && sep_is s (String.length s - back) c.

(** A trailing [Z], or a trailing [+HH:MM] or [-HH:MM]. *)
Definition has_zone_suffix (s : string) : bool :=
  last_char_is s 1 "Z"
  || ((last_char_is s 6 "+" || last_char_is s 6 "-") && last_char_is s 3 ":").


Definition intake_url (w : World) : string :=
  "https://http-intake.logs." ++ DD_SITE w ++ "/api/v2/logs".

(** The service a submitted entry is transmitted with: the namespace
    ["opsight"] when it was submitted without one; the string ["opsight"]
    again when that is what it was submitted with; and the namespace, a
    dot and the text of the submitted value in every other case. *)
Definition service_rule (rt : PyRuntime) (submitted transmitted : dict) : Prop :=
  match dict_get submitted "service" with
  | None => dict_get transmitted "service" = Some (JStr "opsight")
  | Some v =>
      (v = JStr "opsight" ->
       dict_get transmitted "service" = Some (JStr "opsight")) /\
      (v <> JStr "opsight" ->
       dict_get transmitted "service"
       = Some (JStr ("opsight." ++ py_str rt v)))
  end.





(** Three iterations that all fail: the backend is unreachable, then
    [os.uname] raises, then the local log call raises. *)
Definition failing_ticks : list tick_env :=
  [ {| uname_nodename := inr "host-1";
       tick_http := failing_backend;
       tick_clock := fun _ => clock_at 2024 1 1 12 0 0;
       step_fails := fun _ => None |};
    {| uname_nodename := inl (Builtin AttributeError "uname");
       tick_http := quiet_backend;
       tick_clock := fun _ => clock_at 2024 1 1 12 0 30;
       step_fails := fun _ => None |};
    {| uname_nodename := inr "host-1";
       tick_http := quiet_backend;
       tick_clock := fun _ => clock_at 2024 1 1 12 1 0;
       step_fails := fun s =>
         match s with
         | LogStatus => Some (Builtin KeyError "message")
         | _ => None
         end |} ].

(** The body of the v1 search request. *)
Definition v1_payload (query : json) (start_time end_time : string)
    (limit : json) : json :=
  JObj [("query", query);
        ("time", JObj [("from", JStr start_time); ("to", JStr end_time)]);
        ("sort", JStr "timestamp");
        ("limit", limit)].

Definition v1_search_url (w : World) : string :=
  "https://api." ++ DD_SITE w ++ "/api/v1/logs-queries/list".

(** What a search handler may leave behind: nothing, the call of the
    client alone, or the call of the client and one request. *)
Definition search_trace_shape (t : list event) : Prop :=
  t = []
  \/ (exists q s e l, t = [ClientSearch q s e l])
  \/ (exists q s e l url p, t = [ClientSearch q s e l; HttpPost url p]).

(** What every search handler keeps to: it answers, with 200, 400 or 500;
    a 400 comes before any call of the client; a 200 comes after one call
    of the client and one request. *)
Definition search_contract (m : M response) : Prop :=
  exists r,
    outcome m = inr r /\
    (status r = 200 \/ status r = 400 \/ status r = 500) /\
    (status r = 400 -> trace m = []) /\
    (status r = 200 ->
     exists q s e l url p, trace m = [ClientSearch q s e l; HttpPost url p]) /\
    search_trace_shape (trace m).

(** The success envelope [body] echoes the query and the window handed
    to the client and carries the backend's answer [r] under [data]. *)
Definition echoes (q : json) (s e : string) (r : json) (body : json) : Prop :=
  exists d,
    body = JObj d /\
    dict_get d "success" = Some (JBool true) /\
    dict_get d "query" = Some q /\
    dict_get d "time_range" = Some (JObj [("start", JStr s); ("end", JStr e)]) /\
    dict_get d "data" = Some r.

(** The last part of every search handler: the call [c] of the client
    inside [try ... except Exception], inside the handler's outer
    [try ... except Exception]. *)
Definition answered_call (rt : PyRuntime) (key : string) (c : M json)
    (envelope : json -> json) (internal : exn -> string) : M response :=
  try_except
    (try_except
       (logs_response <- c ;;
        _ <- py_len_get logs_response key ;;
        ret (mkResponse 200 (envelope logs_response)))
       any_Exception
       (fun e => ret (error_response 500
                        ("Failed to query Datadog: " ++ str_exn rt e))))
    any_Exception
    (fun e => ret (error_response 500 (internal e))).

(** The backend refuses every request: the transport fails ([None]) or
    it answers with the 4xx or 5xx status [code]. *)
Definition backend_refuses (w : World) (failure : option Z) : Prop :=
  forall url payload,
    match failure with
    | None => http_post w url payload = TransportFailure
    | Some code =>
        status_ok code = false /\
        exists parsed, http_post w url payload = Response code parsed
    end.

(** The answer to a search the backend refused. *)
Definition refused_answer (rt : PyRuntime) (failure : option Z) : response :=
  error_response 500
    ("Failed to query Datadog: Error querying Datadog logs: "
       ++ exn_text rt (RequestException failure)).

(** If [m] sent a request, it answers that the backend refused. *)
Definition refusal_reported (rt : PyRuntime) (failure : option Z)
    (m : M response) : Prop :=
  (exists url p, In (HttpPost url p) (trace m)) ->
  outcome m = inr (refused_answer rt failure).

(** If [m] answers 200, it made one request, the backend answered it
    with a 2xx-or-so status and a JSON value, and the body of the answer
    echoes the query and window of the request and carries that JSON
    value under [data]. *)
Definition success_echoes_backend (w : World) (m : M response) : Prop :=
  forall r,
    outcome m = inr r ->
    status r = 200 ->
    exists q s e l url p code resp,
      trace m = [ClientSearch q s e l; HttpPost url p] /\
      http_post w url p = Response code (inr resp) /\
      status_ok code = true /\
      echoes q s e resp (body r).

(** The reference world with the backend unreachable. *)
Definition down_world : World :=
  {| runtime := ref_runtime;
     DD_SITE := "datadoghq.com";
     LOG_INTERVAL_SECONDS := 30;
     http_post := failing_backend |}.

(** [f"service:{service}"], with [f" {query}"] appended when a query was
    given and is not empty. *)
Definition service_query (service : string) (extra : option string) : string :=
  "service:" ++ service
    ++ match extra with
       | Some x => if String.eqb x "" then "" else " " ++ x
       | None => ""
       end.

(** [data.get('limit', default)]. *)
Definition requested_limit (d : dict) (default : Z) : json :=
  match dict_get d "limit" with Some v => v | None => JInt default end.


(** The answer to an exception the handler itself did not expect. *)
Definition internal_error_answer (rt : PyRuntime) (e : exn) : response :=
  error_response 500 ("Internal server error: " ++ str_exn rt e).

Definition is_object (v : json) : bool :=
  match v with JObj _ => true | _ => false end.

Definition is_string (v : json) : bool :=
  match v with JStr _ => true | _ => false end.

(** An entry the loop of [submit_logs] lets through: an object with a
    [message]. *)
Definition well_formed_entry (v : json) : bool :=
  match v with
  | JObj log => dict_has log "message"
  | _ => false
  end.

(** The answer to a batch whose first offending entry is [bad]. *)
Definition bad_entry_answer (bad : json) : response :=
  error_response 400
    (if is_object bad then "Each log entry must contain a 'message' field"
     else "Each log entry must be a JSON object").

(** The backend takes every request: it answers with a status outside
    400..599. *)
Definition backend_accepts (w : World) : Prop :=
  forall url payload,
    exists code parsed,
      http_post w url payload = Response code parsed /\ status_ok code = true.

(** [jsonify({"success": True, "message": f"Successfully submitted {n} log(s)"})]. *)
Definition submitted_answer (n : nat) : response :=
  mkResponse 200
    (JObj [("success", JBool true);
           ("message",
            JStr ("Successfully submitted "
                    ++ NilZero.string_of_int (Z.to_int (Z.of_nat n))
                    ++ " log(s)"))]).

(** The answer to a submission the backend refused. *)
Definition submit_refused_answer (rt : PyRuntime) (failure : option Z) : response :=
  error_response 500
    ("Failed to submit logs to Datadog: Error submitting logs to Datadog: "
       ++ exn_text rt (RequestException failure)).

(** What [submit_log] does to one entry on its way out: an entry with a
    [timestamp] goes out as it came; one without gets the clock's reading
    in ISO form with a [Z]; nothing else changes. *)
Definition stamped (clock : nat -> Z) (before after : dict) : Prop :=
  dict_has after "timestamp" = true /\
  (dict_has before "timestamp" = true -> after = before) /\
  (dict_has before "timestamp" = false ->
   exists n,
     dict_get after "timestamp"
     = Some (JStr (isoformat (utcnow (clock n)) ++ "Z"))) /\
  (forall k, k <> "timestamp" -> dict_get after k = dict_get before k).

(** What [submit_logs] and [submit_log] together do to one entry: its
    [service] goes out as a string that begins with [opsight], and every
    field other than [service] and [timestamp] goes out as it came. *)
Definition namespaced (submitted transmitted : dict) : Prop :=
  (exists s, dict_get transmitted "service" = Some (JStr s)
             /\ prefix "opsight" s = true) /\
  (forall k, k <> "service" -> k <> "timestamp" ->
             dict_get transmitted k = dict_get submitted k).

(** How many events of a kind a trace has. *)
Definition count_events (p : event -> bool) (t : list event) : nat :=
  List.length (filter p t).


(** Traffic with the backend: a call of the client or a request. *)
Definition is_backend_traffic (ev : event) : bool :=
  match ev with
  | ClientSearch _ _ _ _ | ClientSubmit _ | HttpPost _ _ => true
  | _ => false
  end.

(** [m] has no event of the kind [p]. *)
Definition free_of {A} (p : event -> bool) (m : M A) : Prop :=
  count_events p (trace m) = 0%nat.


(** The record of the local "Periodic status check" of opsight's
    heartbeat, cut down to a few of its attributes. *)
Definition status_record : log_record :=
  {| levelname := "INFO";
     logger_name := "opsight";
     getMessage := "Periodic status check";
     extra_attr := None;
     attributes :=
       [("name", JStr "opsight"); ("msg", JStr "Periodic status check");
        ("levelname", JStr "INFO"); ("lineno", JInt 341);
        ("process", JInt 4242);
        ("service", JStr "opsight"); ("status", JStr "info");
        ("uptime_check", JBool true); ("hostname", JStr "host-1");
        ("timestamp", JStr "2024-01-01T11:59:59Z")];
     exc_text := None |}.

(** The filter the free-form route of opsight takes from a request of
    the CLI: its [--query] when one was given and is not empty, and the
    default "datadog-agent" otherwise. *)
Definition raw_query (query : option string) : string :=
  match query with
  | Some q => if String.eqb q "" then "datadog-agent" else q
  | None => "datadog-agent"
  end.

(** The body of the 200 answer of the relative-range route. *)
Definition relative_envelope (query : string) (timerange : json)
    (start_iso end_iso : string) (logs_response : json) : json :=
  JObj [("success", JBool true);
        ("query", JStr query);
        ("timerange", timerange);
        ("time_range", JObj [("start", JStr start_iso); ("end", JStr end_iso)]);
        ("data", logs_response)].

(** * Properties *)

(** ** The model on concrete inputs *)

Example isoformat_min : isoformat (utcnow 0) = "0001-01-01T00:00:00".
Proof. reflexivity. Qed.

Example isoformat_epoch :
  isoformat (utcnow (719162 * us_per_day)) = "1970-01-01T00:00:00".
Proof. reflexivity. Qed.

Example isoformat_max :
  isoformat (utcnow max_wall) = "9999-12-31T23:59:59.999999".
Proof. reflexivity. Qed.

Example isoformat_leap_day :
  isoformat (utcnow (clock_at 2024 2 29 23 59 58 + 5))
  = "2024-02-29T23:59:58.000005".
Proof. reflexivity. Qed.

Example isoformat_aware :
  isoformat (mkDatetime (clock_at 2024 1 1 0 0 0) (Some (-19800)))
  = "2024-01-01T00:00:00-05:30".
Proof. reflexivity. Qed.

Example invalid_timerange_msg_text :
  invalid_timerange_msg
  = "Invalid timerange. Supported values: ['1h', '30m', '1d', '7d', '15m', '4h', '24h']".
Proof. reflexivity. Qed.

Example parse_Z_spelling :
  parse_iso_seconds (replace_Z "2024-01-01T00:00:00Z")
  = Some (mkDatetime (clock_at 2024 1 1 0 0 0) (Some 0)).
Proof. reflexivity. Qed.

Example parse_refuses_feb_30 : parse_iso_seconds "2024-02-30T00:00:00" = None.
Proof. reflexivity. Qed.

(** ** Laws of the handler monad *)

Arguments bind : simpl never.
Arguments try_except : simpl never.

Lemma bind_ret_l {A B} (a : A) (f : A -> M B) : bind (ret a) f = f a.
Proof. unfold bind, ret. destruct (f a). reflexivity. Qed.

Lemma bind_raise_l {A B} (e : exn) (f : A -> M B) : bind (raise e) f = raise e.
Proof. reflexivity. Qed.

Lemma lift_inr {A} (a : A) : lift (inr a) = ret a.
Proof. reflexivity. Qed.

Lemma lift_inl {A} (e : exn) : @lift A (inl e) = raise e.
Proof. reflexivity. Qed.

Lemma try_ret {A} (a : A) cls (h : exn -> M A) : try_except (ret a) cls h = ret a.
Proof. reflexivity. Qed.

Lemma try_raise {A} (e : exn) cls (h : exn -> M A) :
  try_except (raise e) cls h = if cls e then h e else raise e.
Proof.
  unfold try_except, raise. destruct (cls e); [destruct (h e)|]; reflexivity.
Qed.

Lemma trace_bind {A B} (m : M A) (f : A -> M B) :
  trace (bind m f)
  = (trace m ++ match outcome m with
                | inr a => trace (f a)
                | inl _ => []
                end)%list.
Proof.
  destruct m as [t [e | a]]; unfold bind, trace, outcome; simpl.
  - now rewrite app_nil_r.
  - now destruct (f a).
Qed.

Lemma trace_try {A} (m : M A) cls (h : exn -> M A) :
  trace (try_except m cls h)
  = (trace m ++ match outcome m with
                | inl e => if cls e then trace (h e) else []
                | inr _ => []
                end)%list.
Proof.
  destruct m as [t [e | a]]; unfold try_except, trace, outcome; simpl.
  - destruct (cls e); [now destruct (h e) | now rewrite app_nil_r].
  - now rewrite app_nil_r.
Qed.

Lemma starts_bind {A B} ev (m : M A) (f : A -> M B) :
  starts_with ev m -> starts_with ev (bind m f).
Proof.
  intros [rest H]. unfold starts_with. rewrite trace_bind, H. simpl. eauto.
Qed.

Lemma starts_try {A} ev (m : M A) cls (h : exn -> M A) :
  starts_with ev m -> starts_with ev (try_except m cls h).
Proof.
  intros [rest H]. unfold starts_with. rewrite trace_try, H. simpl. eauto.
Qed.

Lemma starts_emit {B} ev (f : unit -> M B) : starts_with ev (bind (emit ev) f).
Proof. apply starts_bind. exists []. reflexivity. Qed.

(** ** Dictionaries *)

Lemma dict_get_set (d : dict) k k' v :
  dict_get (dict_set d k v) k'
  = if String.eqb k k' then Some v else dict_get d k'.
Proof.
  induction d as [| [k0 v0] r IH]; simpl.
  - reflexivity.
  - destruct (String.eqb_spec k0 k) as [-> | Hne]; simpl.
    + destruct (String.eqb k k'); reflexivity.
    + rewrite IH. destruct (String.eqb_spec k0 k') as [-> | Hne'].
      * destruct (String.eqb_spec k k'); [congruence | reflexivity].
      * reflexivity.
Qed.

Lemma dict_get_nonempty (d : dict) k v :
  dict_get d k = Some v -> py_truthy (JObj d) = true.
Proof. destruct d; [discriminate | reflexivity]. Qed.

(** ** Relative ranges *)

(** The table of the handlers is the enumeration of the specification. *)
Lemma timerange_map_spec (tok : string) :
  assoc timerange_map tok = spec_duration tok.
Proof.
  cbv [spec_duration spec_ranges timerange_map assoc].
  repeat match goal with
         | |- context [String.eqb ?k tok] =>
             destruct (String.eqb_spec k tok) as [<- | ?]; [reflexivity |]
         end.
  reflexivity.
Qed.

Lemma spec_duration_cases tok delta :
  spec_duration tok = Some delta -> In (tok, delta) spec_ranges.
Proof.
  cbv [spec_duration spec_ranges assoc].
  repeat match goal with
         | |- context [String.eqb ?k tok] =>
             destruct (String.eqb_spec k tok) as [<- | ?];
             [intros [= <-]; simpl; tauto |]
         end.
  discriminate.
Qed.

Lemma spec_duration_bounds tok delta :
  spec_duration tok = Some delta -> 0 < delta <= td_days 7 /\ tok <> "".
Proof.
  intros H. apply spec_duration_cases in H. simpl in H.
  repeat destruct H as [[= <- <-] | H]; try contradiction;
    (split; [vm_compute; split; [reflexivity | discriminate] | discriminate]).
Qed.

Lemma dt_sub_utcnow clock td :
  0 <= td <= clock -> clock <= max_wall ->
  dt_sub (utcnow clock) td = inr (mkDatetime (clock - td) None).
Proof.
  intros Htd Hmax. unfold dt_sub, dt_add, utcnow, in_range. simpl.
  replace (clock + - td) with (clock - td) by lia.
  destruct (Z.leb_spec 0 (clock - td)); [| lia].
  destruct (Z.leb_spec (clock - td) max_wall); [reflexivity | lia].
Qed.

Lemma opsight_client_search_starts w q s e l :
  starts_with (ClientSearch q s e l) (Opsight.client_search_logs w q s e l).
Proof. apply starts_emit. Qed.

Lemma querier_client_search_starts w q s e l :
  starts_with (ClientSearch q s e l) (LogsQuerier.client_search_logs w q s e l).
Proof. apply starts_emit. Qed.

Lemma truthy_str (s : string) : s <> "" -> py_truthy (JStr s) = true.
Proof. intros H. simpl. now destruct (String.eqb_spec s ""). Qed.

(** C1.  For every token of the enumeration (15m, 30m, 1h, 4h, 24h, 1d,
    7d) supplied with a service, both services resolve the window to
    [from = now - duration(token)] and [to = now], the naive UTC clock
    reading, so that [to - from = duration(token)], and hand exactly these
    two instants to the client.  The clock is a datetime at least the
    duration after [datetime.min]. *)
Theorem C1_relative_window_duration :
  forall (w : World) (d : dict) (clock : Z) (service : json)
         (tok : string) (delta : timedelta),
    spec_duration tok = Some delta ->
    dict_get d "service" = Some service ->
    py_truthy service = true ->
    dict_get d "timerange" = Some (JStr tok) ->
    delta <= clock <= max_wall ->
    exists (start_time : datetime) (query limit : json),
      let end_time := utcnow clock in
      dt_sub (utcnow clock) delta = inr start_time /\
      wall end_time = clock /\
      wall end_time - wall start_time = delta /\
      instant end_time - instant start_time = delta /\
      starts_with
        (ClientSearch query (isoformat start_time) (isoformat end_time) limit)
        (Opsight.search_logs_with_timerange w (JObj d) clock) /\
      starts_with
        (ClientSearch query (isoformat start_time) (isoformat end_time) limit)
        (LogsQuerier.search_logs_with_timerange w (JObj d) clock).
Proof.
  intros w d clock service tok delta Htok Hsvc Htruthy Htr Hclock.
  destruct (spec_duration_bounds _ _ Htok) as [Hdelta Hne].
  assert (Hsub : dt_sub (utcnow clock) delta
                 = inr (mkDatetime (clock - delta) None))
    by (apply dt_sub_utcnow; lia).
  exists (mkDatetime (clock - delta) None).
  eexists. exists (match dict_get d "limit" with Some v => v | None => JInt 50 end).
  cbv zeta.
  split; [exact Hsub |].
  split; [reflexivity |].
  split; [simpl; lia |].
  split; [unfold instant; simpl; lia |].
  assert (Hd : py_truthy (JObj d) = true) by (eapply dict_get_nonempty; eauto).
  split.
  - unfold Opsight.search_logs_with_timerange.
    apply starts_try. rewrite Hd. cbn [negb]. unfold py_get.
    rewrite Hsvc, Htr, !bind_ret_l.
    unfold py_all. cbn [forallb]. rewrite Htruthy, (truthy_str _ Hne).
    cbn [andb negb]. unfold timerange_lookup.
    rewrite timerange_map_spec, Htok, bind_ret_l, Hsub, lift_inr, !bind_ret_l.
    apply starts_try, starts_bind, opsight_client_search_starts.
  - unfold LogsQuerier.search_logs_with_timerange.
    apply starts_try. rewrite Hd. cbn [negb]. unfold py_get.
    rewrite Hsvc, Htr, !bind_ret_l.
    unfold py_all. cbn [forallb]. rewrite Htruthy, (truthy_str _ Hne).
    cbn [andb negb]. unfold timerange_lookup.
    rewrite timerange_map_spec, Htok, bind_ret_l, Hsub, lift_inr, !bind_ret_l.
    apply starts_try, starts_bind, querier_client_search_starts.
Qed.

Lemma C1_relative_window_duration_witness :
  exists (start_time : datetime) (query limit : json),
    let clock := clock_at 2024 1 1 12 0 0 in
    let request :=
      JObj [("service", JStr "my-app"); ("timerange", JStr "4h");
            ("limit", JInt 5)] in
    dt_sub (utcnow clock) (td_hours 4) = inr start_time /\
    wall (utcnow clock) = clock /\
    wall (utcnow clock) - wall start_time = td_hours 4 /\
    instant (utcnow clock) - instant start_time = td_hours 4 /\
    starts_with
      (ClientSearch query (isoformat start_time) (isoformat (utcnow clock)) limit)
      (Opsight.search_logs_with_timerange ref_world request clock) /\
    starts_with
      (ClientSearch query (isoformat start_time) (isoformat (utcnow clock)) limit)
      (LogsQuerier.search_logs_with_timerange ref_world request clock).
Proof.
  apply (C1_relative_window_duration ref_world
           [("service", JStr "my-app"); ("timerange", JStr "4h");
            ("limit", JInt 5)]
           (clock_at 2024 1 1 12 0 0) (JStr "my-app") "4h" (td_hours 4)).
  - reflexivity.
  - reflexivity.
  - reflexivity.
  - reflexivity.
  - vm_compute. split; discriminate.
Defined.

(** ** Validation before the backend *)

Ltac mstep :=
  repeat (rewrite ?bind_ret_l, ?bind_raise_l, ?try_ret, ?try_raise,
            ?lift_inr, ?lift_inl;
          cbn [any_Exception negb andb orb]).

(** C2, counterexample.  The empty string is no token of the enumeration,
    and the request that carries it is answered "Missing required
    parameters", not "Invalid timerange": the presence check
    [all([service, timerange])] comes first and counts it as missing. *)
Lemma C2_empty_token_counterexample :
  ~ unknown_token_always_invalid_timerange.
Proof.
  intros H.
  specialize (H ref_world
                [("service", JStr "my-app"); ("timerange", JStr "")]
                (clock_at 2024 1 1 12 0 0) (JStr "my-app") ""
                eq_refl eq_refl eq_refl eq_refl).
  vm_compute in H. discriminate H.
Qed.

Lemma opsight_timerange_no_call_unless_known w data clock :
  names_known_range data = false ->
  trace (Opsight.search_logs_with_timerange w data clock) = [].
Proof.
  intros Hunk. unfold Opsight.search_logs_with_timerange.
  destruct (py_truthy data) eqn:Ht; cbn [negb]; [| now mstep].
  destruct data as [| b | z | s | l | d];
    try (unfold py_get, attribute_error; now mstep).
  unfold py_get. mstep.
  destruct (py_all _); cbn [negb]; [| now mstep].
  unfold names_known_range, requested_token in Hunk.
  destruct (dict_get d "timerange") as [[| b | z | s | l | d'] |];
    unfold timerange_lookup; try now mstep.
  rewrite timerange_map_spec.
  destruct (spec_duration s); [discriminate | now mstep].
Qed.

Lemma querier_timerange_no_call_unless_known w data clock :
  names_known_range data = false ->
  trace (LogsQuerier.search_logs_with_timerange w data clock) = [].
Proof.
  intros Hunk. unfold LogsQuerier.search_logs_with_timerange.
  destruct (py_truthy data) eqn:Ht; cbn [negb]; [| now mstep].
  destruct data as [| b | z | s | l | d];
    try (unfold py_get, attribute_error; now mstep).
  unfold py_get. mstep.
  destruct (py_all _); cbn [negb]; [| now mstep].
  unfold names_known_range, requested_token in Hunk.
  destruct (dict_get d "timerange") as [[| b | z | s | l | d'] |];
    unfold timerange_lookup; try now mstep.
  rewrite timerange_map_spec.
  destruct (spec_duration s); [discriminate | now mstep].
Qed.

(** C2, amended.  In both services, a relative-range request that names no
    token of the enumeration never reaches the backend; and when it
    carries a service and its token is a non-empty string outside the
    enumeration, the answer is the 400 "Invalid timerange. Supported
    values: [...]". *)
Theorem C2_unknown_token_rejected :
  forall (w : World) (data : json) (clock : Z),
    names_known_range data = false ->
    (trace (Opsight.search_logs_with_timerange w data clock) = [] /\
     trace (LogsQuerier.search_logs_with_timerange w data clock) = []) /\
    (forall (d : dict) (service : json) (tok : string),
        data = JObj d ->
        dict_get d "service" = Some service ->
        py_truthy service = true ->
        dict_get d "timerange" = Some (JStr tok) ->
        tok <> "" ->
        Opsight.search_logs_with_timerange w data clock
        = ([], inr (error_response 400 invalid_timerange_msg)) /\
        LogsQuerier.search_logs_with_timerange w data clock
        = ([], inr (error_response 400 invalid_timerange_msg))).
Proof.
  intros w data clock Hunk. split.
  - split; [now apply opsight_timerange_no_call_unless_known
           | now apply querier_timerange_no_call_unless_known].
  - intros d service tok -> Hsvc Htruthy Htr Hne.
    unfold names_known_range, requested_token in Hunk. rewrite Htr in Hunk.
    assert (Hnone : spec_duration tok = None)
      by (destruct (spec_duration tok); [discriminate | reflexivity]).
    assert (Hd : py_truthy (JObj d) = true) by (eapply dict_get_nonempty; eauto).
    split.
    + unfold Opsight.search_logs_with_timerange.
      rewrite Hd. cbn [negb]. unfold py_get. rewrite Hsvc, Htr. mstep.
      unfold py_all. cbn [forallb]. rewrite Htruthy, (truthy_str _ Hne).
      cbn [andb negb]. unfold timerange_lookup.
      rewrite timerange_map_spec, Hnone. now mstep.
    + unfold LogsQuerier.search_logs_with_timerange.
      rewrite Hd. cbn [negb]. unfold py_get. rewrite Hsvc, Htr. mstep.
      unfold py_all. cbn [forallb]. rewrite Htruthy, (truthy_str _ Hne).
      cbn [andb negb]. unfold timerange_lookup.
      rewrite timerange_map_spec, Hnone. now mstep.
Qed.

Lemma C2_unknown_token_rejected_witness :
  let data := JObj [("service", JStr "my-app"); ("timerange", JStr "9x")] in
  let clock := clock_at 2024 1 1 12 0 0 in
  (trace (Opsight.search_logs_with_timerange ref_world data clock) = [] /\
   trace (LogsQuerier.search_logs_with_timerange ref_world data clock) = []) /\
  Opsight.search_logs_with_timerange ref_world data clock
  = ([], inr (error_response 400 invalid_timerange_msg)) /\
  LogsQuerier.search_logs_with_timerange ref_world data clock
  = ([], inr (error_response 400 invalid_timerange_msg)).
Proof.
  cbv zeta.
  destruct (C2_unknown_token_rejected ref_world
              (JObj [("service", JStr "my-app"); ("timerange", JStr "9x")])
              (clock_at 2024 1 1 12 0 0) eq_refl) as [Hcalls Hanswer].
  split; [exact Hcalls |].
  apply (Hanswer [("service", JStr "my-app"); ("timerange", JStr "9x")]
           (JStr "my-app") "9x");
    [reflexivity | reflexivity | reflexivity | reflexivity | discriminate].
Defined.

Lemma blank_or_absent_falsy d k :
  blank_or_absent d k ->
  py_truthy (match dict_get d k with Some x => x | None => JNull end) = false.
Proof. intros [-> | ->]; reflexivity. Qed.

(** C10.  On the service-oriented routes (the relative-range route of
    both services and the absolute route of logs_querier), a non-empty
    request object in which a required parameter is the empty string is
    answered exactly as one in which it is absent: the 400 "Missing
    required parameters: ..." and no backend call. *)
Theorem C10_empty_string_counts_as_missing :
  forall (w : World) (d : dict) (clock : Z),
    d <> [] ->
    ((blank_or_absent d "service" \/ blank_or_absent d "timerange") ->
       Opsight.search_logs_with_timerange w (JObj d) clock
       = ([], inr missing_timerange_params) /\
       LogsQuerier.search_logs_with_timerange w (JObj d) clock
       = ([], inr missing_timerange_params)) /\
    ((blank_or_absent d "service" \/ blank_or_absent d "start_time"
      \/ blank_or_absent d "end_time") ->
       LogsQuerier.search_logs w (JObj d) = ([], inr missing_absolute_params)).
Proof.
  intros w d clock Hd.
  assert (Ht : py_truthy (JObj d) = true) by (destruct d; [congruence | reflexivity]).
  split.
  - intros Hmiss.
    assert (Hall : py_all
                     [match dict_get d "service" with Some x => x | None => JNull end;
                      match dict_get d "timerange" with Some x => x | None => JNull end]
                   = false).
    { unfold py_all. cbn [forallb].
      destruct Hmiss as [H | H];
        rewrite (blank_or_absent_falsy _ _ H);
        [reflexivity | now rewrite andb_false_r]. }
    split.
    + unfold Opsight.search_logs_with_timerange.
      rewrite Ht. cbn [negb]. unfold py_get. mstep. rewrite Hall. now mstep.
    + unfold LogsQuerier.search_logs_with_timerange.
      rewrite Ht. cbn [negb]. unfold py_get. mstep. rewrite Hall. now mstep.
  - intros Hmiss.
    assert (Hall : py_all
                     [match dict_get d "service" with Some x => x | None => JNull end;
                      match dict_get d "start_time" with Some x => x | None => JNull end;
                      match dict_get d "end_time" with Some x => x | None => JNull end]
                   = false).
    { unfold py_all. cbn [forallb].
      destruct Hmiss as [H | [H | H]];
        rewrite (blank_or_absent_falsy _ _ H);
        rewrite ?andb_false_r; reflexivity. }
    unfold LogsQuerier.search_logs.
    rewrite Ht. cbn [negb]. unfold py_get. mstep. rewrite Hall. now mstep.
Qed.

Lemma C10_empty_string_counts_as_missing_witness :
  let blank := [("service", JStr ""); ("timerange", JStr "1h");
                ("start_time", JStr "2024-01-01T00:00:00Z");
                ("end_time", JStr "")] in
  let clock := clock_at 2024 1 1 12 0 0 in
  (Opsight.search_logs_with_timerange ref_world (JObj blank) clock
   = ([], inr missing_timerange_params) /\
   LogsQuerier.search_logs_with_timerange ref_world (JObj blank) clock
   = ([], inr missing_timerange_params)) /\
  LogsQuerier.search_logs ref_world (JObj blank)
  = ([], inr missing_absolute_params).
Proof.
  cbv zeta.
  destruct (C10_empty_string_counts_as_missing ref_world
              [("service", JStr ""); ("timerange", JStr "1h");
               ("start_time", JStr "2024-01-01T00:00:00Z");
               ("end_time", JStr "")]
              (clock_at 2024 1 1 12 0 0)) as [Hrel Habs].
  - discriminate.
  - split.
    + apply Hrel. left. left. reflexivity.
    + apply Habs. right. right. left. reflexivity.
Defined.

(** ** What reaches the backend *)

Lemma pure_cases {A} (m : M A) :
  trace m = [] -> (exists e, m = raise e) \/ (exists a, m = ret a).
Proof.
  destruct m as [t [e | a]]; unfold trace; simpl; intros ->;
    [left; exists e | right; exists a]; reflexivity.
Qed.

Lemma trace_bind_pure {A B} (m : M A) (f : A -> M B) :
  (forall a, trace (f a) = []) -> trace (bind m f) = trace m.
Proof.
  intros H. rewrite trace_bind. destruct (outcome m); [| rewrite H];
    apply app_nil_r.
Qed.

Lemma trace_try_pure {A} (m : M A) cls (h : exn -> M A) :
  (forall e, trace (h e) = []) -> trace (try_except m cls h) = trace m.
Proof.
  intros H. rewrite trace_try.
  destruct (outcome m) as [e | a]; [destruct (cls e); rewrite ?H |];
    apply app_nil_r.
Qed.

Lemma py_get_pure data k dflt : trace (py_get data k dflt) = [].
Proof. destruct data; reflexivity. Qed.

Lemma py_len_pure v : trace (py_len v) = [].
Proof. destruct v; reflexivity. Qed.

Lemma py_len_get_pure resp k : trace (py_len_get resp k) = [].
Proof.
  unfold py_len_get.
  destruct (pure_cases _ (py_get_pure resp k (JList []))) as [[e ->] | [a ->]];
    mstep; [reflexivity | apply py_len_pure].
Qed.

Lemma py_min_pure l cap : trace (py_min l cap) = [].
Proof. destruct l; reflexivity. Qed.






(** [request.get_json() or {}]: a falsy body is the empty request. *)
Lemma opsight_search_falsy_body w body clock :
  py_truthy body = false ->
  Opsight.search_logs w body clock = Opsight.search_logs w (JObj []) clock.
Proof. intros H. unfold Opsight.search_logs. now rewrite H. Qed.

Lemma data_of_dict (d : dict) :
  (if py_truthy (JObj d) then JObj d else JObj []) = JObj d.
Proof. now destruct d. Qed.




(** logs_querier puts the caller's limit into the v1 body as it is. *)
Example logs_querier_limit_not_clamped :
  exists ev,
    In ev (trace (LogsQuerier.search_logs_with_timerange ref_world
                    (JObj [("service", JStr "my-app"); ("timerange", JStr "1h");
                           ("limit", JInt 5000)])
                    (clock_at 2024 1 1 12 0 0))) /\
    transmitted_limit ev = Some (JInt 5000).
Proof. eexists. split; [vm_compute; right; left; reflexivity | reflexivity]. Qed.





(** ** The instants handed to the client *)

Example zone_suffix_Z : has_zone_suffix "2024-01-01T11:00:00Z" = true.
Proof. reflexivity. Qed.

Example zone_suffix_offset : has_zone_suffix "2024-01-01T11:00:00+00:00" = true.
Proof. reflexivity. Qed.

(** C4, at the request [{"service": "my-app", "timerange": "1h",
    "limit": 5}] received at 2024-01-01T12:00:00 UTC.  Both services hand
    the client the strings "2024-01-01T11:00:00" and "2024-01-01T12:00:00",
    the [isoformat()] of naive datetimes, which carry neither a [Z] nor an
    offset; the free-form route of opsight, at the same clock, appends
    the [Z]. *)
Theorem C4_relative_window_without_zone_suffix :
  let request := JObj [("service", JStr "my-app"); ("timerange", JStr "1h");
                       ("limit", JInt 5)] in
  let clock := clock_at 2024 1 1 12 0 0 in
  let handed := ClientSearch (JStr "service:my-app")
                  "2024-01-01T11:00:00" "2024-01-01T12:00:00" (JInt 5) in
  starts_with handed (Opsight.search_logs_with_timerange ref_world request clock) /\
  starts_with handed (LogsQuerier.search_logs_with_timerange ref_world request clock) /\
  has_zone_suffix "2024-01-01T11:00:00" = false /\
  has_zone_suffix "2024-01-01T12:00:00" = false /\
  starts_with
    (ClientSearch (JStr "datadog-agent") "2024-01-01T11:00:00Z"
       "2024-01-01T11:05:00Z" (JInt 5))
    (Opsight.search_logs ref_world (JObj []) clock).
Proof.
  cbv zeta. unfold starts_with.
  repeat split; try reflexivity; eexists; vm_compute; reflexivity.
Qed.

(** The absolute route of opsight appends [Z] to the [isoformat()] of an
    aware datetime, which already ends in its offset. *)
Example opsight_absolute_window_rendering :
  starts_with
    (ClientSearch (JStr "datadog-agent") "2024-01-01T00:00:00+00:00Z"
       "2024-01-01T01:00:00+05:00Z" (JInt 5))
    (Opsight.search_logs ref_world
       (JObj [("start_time", JStr "2024-01-01T00:00:00Z");
              ("end_time", JStr "2024-01-01T01:00:00+05:00")])
       (clock_at 2024 1 1 12 0 0)).
Proof. eexists. vm_compute. reflexivity. Qed.

(** C8.  On the free-form search route of opsight, a request object that
    lacks [start_time] or [end_time] (so in particular one that has
    neither) is resolved to [from = now - 1 hour] and
    [to = from + 5 minutes], and these two instants, each with a [Z]
    appended, are handed to the client.  The clock is a datetime at least
    one hour after [datetime.min]. *)
Theorem C8_default_window :
  forall (w : World) (d : dict) (clock : Z),
    negb (dict_has d "start_time") || negb (dict_has d "end_time") = true ->
    td_hours 1 <= clock <= max_wall ->
    exists (start_time end_time : datetime) (query limit : json),
      dt_sub (utcnow clock) (td_hours 1) = inr start_time /\
      dt_add start_time (td_minutes 5) = inr end_time /\
      wall start_time = clock - td_hours 1 /\
      wall end_time = wall start_time + td_minutes 5 /\
      instant end_time - instant start_time = td_minutes 5 /\
      starts_with
        (ClientSearch query (isoformat start_time ++ "Z")
           (isoformat end_time ++ "Z") limit)
        (Opsight.search_logs w (JObj d) clock).
Proof.
  intros w d clock Hmissing Hclock.
  assert (H1 : td_hours 1 = 3600000000) by reflexivity.
  assert (H5 : td_minutes 5 = 300000000) by reflexivity.
  assert (Hsub : dt_sub (utcnow clock) (td_hours 1)
                 = inr (mkDatetime (clock - td_hours 1) None))
    by (apply dt_sub_utcnow; lia).
  assert (Hadd : dt_add (mkDatetime (clock - td_hours 1) None) (td_minutes 5)
                 = inr (mkDatetime (clock - td_hours 1 + td_minutes 5) None)).
  { unfold dt_add, in_range. cbn [wall utcoffset].
    destruct (Z.leb_spec 0 (clock - td_hours 1 + td_minutes 5)); [| lia].
    destruct (Z.leb_spec (clock - td_hours 1 + td_minutes 5) max_wall);
      [reflexivity | lia]. }
  exists (mkDatetime (clock - td_hours 1) None),
         (mkDatetime (clock - td_hours 1 + td_minutes 5) None).
  exists (match dict_get d "query" with Some v => v | None => JStr "datadog-agent" end),
         (match dict_get d "limit" with Some v => v | None => JInt 5 end).
  split; [exact Hsub |]. split; [exact Hadd |].
  split; [reflexivity |]. split; [reflexivity |].
  split; [unfold instant; cbn [wall utcoffset]; lia |].
  unfold Opsight.search_logs. rewrite data_of_dict.
  apply starts_try. unfold py_get, py_in. mstep.
  rewrite Hmissing, Hsub. mstep. rewrite Hadd. mstep.
  apply starts_try, starts_bind, opsight_client_search_starts.
Qed.

Lemma C8_default_window_witness :
  exists (start_time end_time : datetime) (query limit : json),
    let clock := clock_at 2024 1 1 12 0 0 in
    dt_sub (utcnow clock) (td_hours 1) = inr start_time /\
    dt_add start_time (td_minutes 5) = inr end_time /\
    wall start_time = clock - td_hours 1 /\
    wall end_time = wall start_time + td_minutes 5 /\
    instant end_time - instant start_time = td_minutes 5 /\
    starts_with
      (ClientSearch query (isoformat start_time ++ "Z")
         (isoformat end_time ++ "Z") limit)
      (Opsight.search_logs ref_world (JObj [("query", JStr "status:error")]) clock).
Proof.
  apply (C8_default_window ref_world [("query", JStr "status:error")]
           (clock_at 2024 1 1 12 0 0)).
  - reflexivity.
  - vm_compute. split; discriminate.
Defined.

(** ** The two spellings of UTC *)






(** The same instant comes out of both spellings under the reference
    parser. *)
Example Z_and_zero_offset_same_instant :
  fromisoformat ref_runtime (replace_Z ("2024-01-01T00:00:00" ++ "Z"))
  = Some (mkDatetime (clock_at 2024 1 1 0 0 0) (Some 0)) /\
  fromisoformat ref_runtime (replace_Z ("2024-01-01T00:00:00" ++ "+00:00"))
  = Some (mkDatetime (clock_at 2024 1 1 0 0 0) (Some 0)).
Proof. split; reflexivity. Qed.

(** ** Submission *)

(** The client emits its invocation and one request that carries the
    stamped entries, whatever the backend answers. *)
Lemma opsight_submit_trace w clock ld :
  trace (Opsight.client_submit_log w clock ld)
  = [ClientSubmit (Opsight.json_of_log_data ld);
     HttpPost (intake_url w)
       (JList (map JObj
                 (Opsight.stamp_logs clock 0
                    match ld with
                    | Opsight.OneLog d => [d]
                    | Opsight.LogList l => l
                    end)))].
Proof.
  unfold Opsight.client_submit_log.
  rewrite trace_bind. cbn [emit trace outcome fst snd app]. f_equal.
  rewrite trace_try_pure by (intros; reflexivity).
  rewrite trace_bind. cbn [emit trace outcome fst snd app].
  fold (intake_url w). f_equal.
  destruct (http_post w _ _) as [| code parsed]; [reflexivity |].
  now destruct (status_ok code).
Qed.

Lemma process_logs_accepts w (logs : list dict) :
  (forall log, In log logs -> dict_has log "message" = true) ->
  Opsight.process_logs w (map JObj logs)
  = inr (map (Opsight.namespace_service w) logs).
Proof.
  induction logs as [| log r IH]; intros Hmsg; cbn [map Opsight.process_logs].
  - reflexivity.
  - rewrite (Hmsg log (or_introl eq_refl)). cbn [negb].
    rewrite IH; [reflexivity |]. intros l Hl. apply Hmsg. now right.
Qed.

Lemma process_logs_rejects w (entries : list json) (log : dict) :
  In (JObj log) entries ->
  dict_has log "message" = false ->
  exists msg,
    Opsight.process_logs w entries = inl (error_response 400 msg) /\
    (msg = "Each log entry must contain a 'message' field"
     \/ msg = "Each log entry must be a JSON object").
Proof.
  intros Hin Hno.
  induction entries as [| entry r IH]; [contradiction |].
  cbn [Opsight.process_logs].
  destruct entry as [| b | z | s | l | d]; try (eexists; split; [reflexivity | tauto]).
  destruct (dict_has d "message") eqn:Hd; cbn [negb];
    [| eexists; split; [reflexivity | tauto]].
  destruct Hin as [[= ->] | Hin]; [congruence |].
  destruct (IH Hin) as (msg & -> & Hmsg). eauto.
Qed.

(** The comparison of [submit_logs] holds of the string ["opsight"] and
    of nothing else. *)
Lemma is_opsight_iff (v : json) :
  Opsight.is_opsight v = true <-> v = JStr "opsight".
Proof.
  destruct v as [| b | z | s | l | d]; cbn [Opsight.is_opsight];
    try (split; discriminate).
  rewrite String.eqb_eq. split; [now intros -> | now intros [= ->]].
Qed.

Lemma namespace_service_rule w (log : dict) :
  service_rule (runtime w) log (Opsight.namespace_service w log).
Proof.
  unfold service_rule, Opsight.namespace_service.
  destruct (dict_get log "service") as [v |] eqn:Hs.
  - destruct (Opsight.is_opsight v) eqn:Hv; cbn [negb].
    + apply is_opsight_iff in Hv. subst v.
      split; [intros _; exact Hs | intros Hne; now destruct Hne].
    + split.
      * intros Heq. apply is_opsight_iff in Heq. congruence.
      * intros _. rewrite dict_get_set. reflexivity.
  - rewrite dict_get_set. reflexivity.
Qed.

Lemma service_rule_stamped rt clock n (logs done : list dict) :
  Forall2 (service_rule rt) logs done ->
  Forall2 (service_rule rt) logs (Opsight.stamp_logs clock n done).
Proof.
  intros H. revert n.
  induction H as [| log out r r' Hrule _ IH]; intros n; cbn [Opsight.stamp_logs].
  - constructor.
  - destruct (dict_has out "timestamp"); constructor; auto.
    unfold service_rule in *. rewrite dict_get_set.
    cbn [String.eqb Ascii.eqb Bool.eqb]. exact Hrule.
Qed.

Lemma namespace_all_rule w (logs : list dict) :
  Forall2 (service_rule (runtime w)) logs (map (Opsight.namespace_service w) logs).
Proof.
  induction logs; cbn [map]; constructor; auto using namespace_service_rule.
Qed.

Lemma service_rule_on_strings rt (logs sent : list dict) :
  Forall2 (service_rule rt) logs sent ->
  forall log out s,
    In (log, out) (combine logs sent) ->
    dict_get log "service" = Some (JStr s) ->
    s <> "opsight" ->
    dict_get out "service" = Some (JStr ("opsight." ++ s)).
Proof.
  intros Hrule log out s Hin Hs Hne.
  induction Hrule as [| l o r r' Hlo _ IH]; [contradiction |].
  destruct Hin as [[= -> ->] | Hin]; [| now apply IH].
  unfold service_rule in Hlo. rewrite Hs in Hlo.
  destruct Hlo as [_ Hother]. apply Hother. congruence.
Qed.

Lemma service_rule_on_namespace rt (logs sent : list dict) :
  Forall2 (service_rule rt) logs sent ->
  forall log out,
    In (log, out) (combine logs sent) ->
    dict_get log "service" = Some (JStr "opsight") ->
    dict_get out "service" = Some (JStr "opsight").
Proof.
  intros Hrule log out Hin Hs.
  induction Hrule as [| l o r r' Hlo _ IH]; [contradiction |].
  destruct Hin as [[= -> ->] | Hin]; [| now apply IH].
  unfold service_rule in Hlo. rewrite Hs in Hlo.
  destruct Hlo as [Hown _]. now apply Hown.
Qed.

Lemma service_rule_on_absent rt (logs sent : list dict) :
  Forall2 (service_rule rt) logs sent ->
  forall log out,
    In (log, out) (combine logs sent) ->
    dict_get log "service" = None ->
    dict_get out "service" = Some (JStr "opsight").
Proof.
  intros Hrule log out Hin Hs.
  induction Hrule as [| l o r r' Hlo _ IH]; [contradiction |].
  destruct Hin as [[= -> ->] | Hin]; [| now apply IH].
  unfold service_rule in Hlo. now rewrite Hs in Hlo.
Qed.

(** C5.  When every entry of a submitted batch is an object with a
    [message], opsight sends one request whose entries, in order, carry:
    [service = "opsight"] where the submitted entry had no [service];
    the submitted [service] where it was ["opsight"] already; and
    ["opsight." ++ str(service)] otherwise, so ["opsight.foo"] for
    ["foo"]. *)
Theorem C5_service_namespacing :
  forall (w : World) (d : dict) (v : json) (logs : list dict) (clock : nat -> Z),
    dict_get d "logs" = Some v ->
    as_list v = map JObj logs ->
    (forall log, In log logs -> dict_has log "message" = true) ->
    exists (handed : json) (sent : list dict),
      trace (Opsight.submit_logs w (JObj d) clock)
      = [ClientSubmit handed; HttpPost (intake_url w) (JList (map JObj sent))] /\
      Forall2 (service_rule (runtime w)) logs sent /\
      (forall log out,
          In (log, out) (combine logs sent) ->
          dict_get log "service" = None ->
          dict_get out "service" = Some (JStr "opsight")) /\
      (forall log out,
          In (log, out) (combine logs sent) ->
          dict_get log "service" = Some (JStr "opsight") ->
          dict_get out "service" = Some (JStr "opsight")) /\
      (forall log out s,
          In (log, out) (combine logs sent) ->
          dict_get log "service" = Some (JStr s) ->
          s <> "opsight" ->
          dict_get out "service" = Some (JStr ("opsight." ++ s))).
Proof.
  intros w d v logs clock Hlogs Hentries Hmsg.
  set (named := map (Opsight.namespace_service w) logs).
  exists (JList (map JObj named)), (Opsight.stamp_logs clock 0 named).
  assert (Hrule : Forall2 (service_rule (runtime w)) logs
                    (Opsight.stamp_logs clock 0 named))
    by apply service_rule_stamped, namespace_all_rule.
  split; [| split; [exact Hrule | split; [| split]]].
  - unfold Opsight.submit_logs.
    rewrite (dict_get_nonempty _ _ _ Hlogs). cbn [negb].
    unfold py_in, py_item, dict_has. rewrite Hlogs. mstep.
    rewrite Hentries, (process_logs_accepts _ _ Hmsg). fold named.
    rewrite trace_try_pure by (intros; reflexivity).
    rewrite trace_try_pure by (intros; reflexivity).
    rewrite trace_bind_pure by (intros; reflexivity).
    apply opsight_submit_trace.
  - now apply (service_rule_on_absent (runtime w)).
  - now apply (service_rule_on_namespace (runtime w)).
  - now apply (service_rule_on_strings (runtime w)).
Qed.

Lemma C5_service_namespacing_witness :
  exists (handed : json) (sent : list dict),
    let foo := [("message", JStr "a"); ("service", JStr "foo")] in
    let bare := [("message", JStr "b")] in
    let own := [("message", JStr "c"); ("service", JStr "opsight")] in
    trace (Opsight.submit_logs ref_world
             (JObj [("logs", JList [JObj foo; JObj bare; JObj own])])
             (fun n => clock_at 2024 1 1 12 0 (Z.of_nat n)))
    = [ClientSubmit handed;
       HttpPost (intake_url ref_world) (JList (map JObj sent))] /\
    map (fun out => dict_get out "service") sent
    = [Some (JStr "opsight.foo"); Some (JStr "opsight"); Some (JStr "opsight")].
Proof.
  destruct (C5_service_namespacing ref_world
              [("logs", JList [JObj [("message", JStr "a"); ("service", JStr "foo")];
                               JObj [("message", JStr "b")];
                               JObj [("message", JStr "c");
                                     ("service", JStr "opsight")]])]
              (JList [JObj [("message", JStr "a"); ("service", JStr "foo")];
                      JObj [("message", JStr "b")];
                      JObj [("message", JStr "c"); ("service", JStr "opsight")]])
              [[("message", JStr "a"); ("service", JStr "foo")];
               [("message", JStr "b")];
               [("message", JStr "c"); ("service", JStr "opsight")]]
              (fun n => clock_at 2024 1 1 12 0 (Z.of_nat n)))
    as (handed & sent & Htrace & Hrule & Habsent & Hown & Hother).
  - reflexivity.
  - reflexivity.
  - intros log [<- | [<- | [<- | []]]]; reflexivity.
  - exists handed, sent. split; [exact Htrace |].
    destruct sent as [| out1 [| out2 [| out3 [| out4 sent]]]];
      try (exfalso; apply Forall2_length in Hrule; discriminate Hrule).
    cbn [map].
    rewrite (Hother _ out1 "foo") by
      (first [now left | reflexivity | discriminate]).
    rewrite (Habsent _ out2) by (first [now right; left | reflexivity]).
    rewrite (Hown _ out3) by (first [now right; right; left | reflexivity]).
    reflexivity.
Defined.

(** C6.  A batch in which some entry is an object without a [message] is
    answered with a 400 validation error, and neither the client nor the
    backend is called: nothing of the batch is sent. *)
Theorem C6_batch_without_message_rejected :
  forall (w : World) (d : dict) (v : json) (log : dict) (clock : nat -> Z),
    dict_get d "logs" = Some v ->
    In (JObj log) (as_list v) ->
    dict_has log "message" = false ->
    exists msg,
      Opsight.submit_logs w (JObj d) clock = ([], inr (error_response 400 msg)) /\
      (msg = "Each log entry must contain a 'message' field"
       \/ msg = "Each log entry must be a JSON object").
Proof.
  intros w d v log clock Hlogs Hin Hno.
  destruct (process_logs_rejects w _ _ Hin Hno) as (msg & Hrej & Hmsg).
  exists msg. split; [| exact Hmsg].
  unfold Opsight.submit_logs.
  rewrite (dict_get_nonempty _ _ _ Hlogs). cbn [negb].
  unfold py_in, py_item, dict_has. rewrite Hlogs. mstep.
  rewrite Hrej. now mstep.
Qed.

Lemma C6_batch_without_message_rejected_witness :
  exists msg,
    Opsight.submit_logs ref_world
      (JObj [("logs", JList [JObj [("message", JStr "kept back")];
                             JObj [("service", JStr "foo")]])])
      (fun _ => clock_at 2024 1 1 12 0 0)
    = ([], inr (error_response 400 msg)) /\
    (msg = "Each log entry must contain a 'message' field"
     \/ msg = "Each log entry must be a JSON object").
Proof.
  apply (C6_batch_without_message_rejected ref_world
           [("logs", JList [JObj [("message", JStr "kept back")];
                            JObj [("service", JStr "foo")]])]
           (JList [JObj [("message", JStr "kept back")];
                   JObj [("service", JStr "foo")]])
           [("service", JStr "foo")]).
  - reflexivity.
  - right. left. reflexivity.
  - reflexivity.
Defined.

(** ** The heartbeat loop *)















(** The handler is not covered by its own [try]: with a negative
    interval the [time.sleep] of the handler raises and the loop ends in
    its first iteration. *)
Example negative_interval_ends_loop :
  exists e,
    outcome (LogsQuerier.periodic_logger
               {| runtime := ref_runtime; DD_SITE := "datadoghq.com";
                  LOG_INTERVAL_SECONDS := -1; http_post := quiet_backend |}
               failing_ticks)
    = inl e.
Proof. eexists. reflexivity. Qed.

(** ** The shape of every search *)

Lemma bind_emit {B} (ev : event) (f : unit -> M B) :
  bind (emit ev) f = (ev :: trace (f tt), outcome (f tt)).
Proof. unfold bind, emit, trace, outcome. now destruct (f tt). Qed.

Lemma bind_inr {A B} t (a : A) (f : A -> M B) :
  bind (t, inr a) f = ((t ++ trace (f a))%list, outcome (f a)).
Proof. unfold bind, trace, outcome. now destruct (f a). Qed.

Lemma bind_inl {A B} t e (f : A -> M B) : bind (t, inl e) f = (t, inl e).
Proof. reflexivity. Qed.

Lemma try_inl {A} t e (h : exn -> M A) :
  try_except (t, inl e) any_Exception h
  = ((t ++ trace (h e))%list, outcome (h e)).
Proof. unfold try_except, any_Exception, trace, outcome. now destruct (h e). Qed.

Lemma try_inr {A} t (a : A) cls h : try_except (t, inr a) cls h = (t, inr a).
Proof. reflexivity. Qed.

(** What the client of opsight comes back with: it raised before any
    request, it raised after its request, or it returns the backend's
    answer, whose [data] has a length. *)
Lemma opsight_client_cases w q s e l :
  (exists x, Opsight.client_search_logs w q s e l = ([ClientSearch q s e l], inl x))
  \/ (exists pl x,
        Opsight.client_search_logs w q s e l
        = ([ClientSearch q s e l; HttpPost (v2_search_url w) (v2_payload q s e pl)],
           inl x))
  \/ (exists pl resp n code,
        Opsight.client_search_logs w q s e l
        = ([ClientSearch q s e l; HttpPost (v2_search_url w) (v2_payload q s e pl)],
           inr resp)
        /\ py_len_get resp "data" = ret n
        /\ http_post w (v2_search_url w) (v2_payload q s e pl)
           = Response code (inr resp)
        /\ status_ok code = true).
Proof.
  unfold Opsight.client_search_logs. rewrite bind_emit.
  destruct (pure_cases _ (py_min_pure l 1000)) as [[x ->] | [pl ->]]; mstep.
  - left. exists x. reflexivity.
  - right. rewrite bind_emit.
    fold (v2_search_url w). fold (v2_payload q s e pl).
    destruct (http_post w _ _) as [| code [x | resp]] eqn:Hpost.
    + left. exists pl. eexists. reflexivity.
    + left. exists pl. destruct (status_ok code); mstep.
      * unfold try_except, trace, outcome, raise. cbn [fst snd].
        destruct (is_RequestException x); eexists; reflexivity.
      * eexists. reflexivity.
    + destruct (status_ok code) eqn:Hcode; mstep.
      * destruct (pure_cases _ (py_len_get_pure resp "data")) as [[x Hx] | [n Hn]].
        -- left. exists pl. rewrite Hx. mstep.
           unfold try_except, trace, outcome, raise. cbn [fst snd].
           destruct (is_RequestException x); eexists; reflexivity.
        -- right. exists pl, resp, n, code. rewrite Hn. mstep.
           repeat split; try reflexivity; assumption.
      * left. exists pl. eexists. reflexivity.
Qed.

Lemma querier_client_cases w q s e l :
  (exists x,
      LogsQuerier.client_search_logs w q s e l
      = ([ClientSearch q s e l; HttpPost (v1_search_url w) (v1_payload q s e l)],
         inl x))
  \/ (exists resp n code,
        LogsQuerier.client_search_logs w q s e l
        = ([ClientSearch q s e l; HttpPost (v1_search_url w) (v1_payload q s e l)],
           inr resp)
        /\ py_len_get resp "logs" = ret n
        /\ http_post w (v1_search_url w) (v1_payload q s e l)
           = Response code (inr resp)
        /\ status_ok code = true).
Proof.
  unfold LogsQuerier.client_search_logs. rewrite !bind_emit.
  fold (v1_search_url w). fold (v1_payload q s e l).
  destruct (http_post w _ _) as [| code [x | resp]] eqn:Hpost.
  - left. eexists. reflexivity.
  - left. destruct (status_ok code); mstep.
    + unfold try_except, trace, outcome, raise. cbn [fst snd].
      destruct (is_RequestException x); eexists; reflexivity.
    + eexists. reflexivity.
  - destruct (status_ok code) eqn:Hcode; mstep.
    + destruct (pure_cases _ (py_len_get_pure resp "logs")) as [[x Hx] | [n Hn]].
      * left. rewrite Hx. mstep.
        unfold try_except, trace, outcome, raise. cbn [fst snd].
        destruct (is_RequestException x); eexists; reflexivity.
      * right. exists resp, n, code. rewrite Hn. mstep.
        repeat split; try reflexivity; assumption.
    + left. eexists. reflexivity.
Qed.

Ltac echo_done :=
  intros; eexists; split; [reflexivity | repeat split; reflexivity].

(** Every run of a search handler ends in one of three ways: a 400, a
    500, or the answer built around one call of the client.  A property
    of the handler's result follows from the three. *)
Lemma opsight_timerange_cases (P : M response -> Prop) w data clock :
  (forall msg, P (ret (error_response 400 msg))) ->
  (forall msg, P (ret (error_response 500 msg))) ->
  (forall q s e l f g,
      (forall r, echoes q s e r (f r)) ->
      P (answered_call (runtime w) "data"
           (Opsight.client_search_logs w q s e l) f g)) ->
  P (Opsight.search_logs_with_timerange w data clock).
Proof.
  intros H400 H500 Hcall.
  unfold Opsight.search_logs_with_timerange.
  destruct (py_truthy data) eqn:Ht; cbn [negb]; [| mstep; apply H400].
  destruct data as [| b | z | s | l | d];
    try (unfold py_get, attribute_error; mstep; apply H500).
  unfold py_get. mstep.
  destruct (py_all _); cbn [negb]; [| mstep; apply H400].
  destruct (dict_get d "timerange") as [[| b | z | s | l | d'] |];
    unfold timerange_lookup; mstep; try apply H400; try apply H500.
  destruct (assoc timerange_map s) as [delta |]; mstep; [| apply H400].
  destruct (dt_sub (utcnow clock) delta) as [x | start_time]; mstep;
    [apply H500 |].
  apply (Hcall _ _ _ _
           (fun a0 => JObj [("success", JBool true); _; _; _; ("data", a0)])).
  echo_done.
Qed.

Lemma opsight_search_dict_cases (P : M response -> Prop) w d clock :
  (forall msg, P (ret (error_response 400 msg))) ->
  (forall msg, P (ret (error_response 500 msg))) ->
  (forall q s e l f g,
      (forall r, echoes q s e r (f r)) ->
      P (answered_call (runtime w) "data"
           (Opsight.client_search_logs w q s e l) f g)) ->
  P (Opsight.search_logs w (JObj d) clock).
Proof.
  intros H400 H500 Hcall.
  unfold Opsight.search_logs. rewrite data_of_dict.
  unfold py_get, py_in. mstep.
  destruct (negb (dict_has d "start_time") || negb (dict_has d "end_time")).
  - destruct (dt_sub (utcnow clock) (td_hours 1)) as [x | start_time]; mstep;
      [apply H500 |].
    destruct (dt_add start_time (td_minutes 5)) as [x | end_time]; mstep;
      [apply H500 |].
    apply (Hcall _ _ _ _
             (fun a0 => JObj [("success", JBool true); _; _; ("data", a0)])).
    echo_done.
  - mstep.
    destruct (dict_get d "start_time") as [[| b | z | s | l | d'] |];
      unfold py_replace, attribute_error; mstep; cbn [is_ValueError];
      try apply H500.
    destruct (fromisoformat (runtime w) (replace_Z s)) as [start_dt |];
      mstep; cbn [is_ValueError]; mstep; [| apply H400].
    destruct (dict_get d "end_time") as [[| b | z | s' | l | d'] |];
      mstep; cbn [is_ValueError]; try apply H500.
    destruct (fromisoformat (runtime w) (replace_Z s')) as [end_dt |];
      mstep; cbn [is_ValueError]; mstep; [| apply H400].
    apply (Hcall _ _ _ _
             (fun a0 => JObj [("success", JBool true); _; _; ("data", a0)])).
    echo_done.
Qed.

Lemma opsight_search_cases (P : M response -> Prop) w body clock :
  (forall msg, P (ret (error_response 400 msg))) ->
  (forall msg, P (ret (error_response 500 msg))) ->
  (forall q s e l f g,
      (forall r, echoes q s e r (f r)) ->
      P (answered_call (runtime w) "data"
           (Opsight.client_search_logs w q s e l) f g)) ->
  P (Opsight.search_logs w body clock).
Proof.
  intros H400 H500 Hcall.
  destruct (py_truthy body) eqn:Ht.
  - destruct body as [| b | z | s | l | d];
      try (now apply opsight_search_dict_cases);
      unfold Opsight.search_logs; rewrite Ht;
      unfold py_get, attribute_error; mstep; apply H500.
  - rewrite (opsight_search_falsy_body _ _ _ Ht).
    now apply opsight_search_dict_cases.
Qed.

Lemma querier_timerange_cases (P : M response -> Prop) w data clock :
  (forall msg, P (ret (error_response 400 msg))) ->
  (forall msg, P (ret (error_response 500 msg))) ->
  (forall q s e l f g,
      (forall r, echoes q s e r (f r)) ->
      P (answered_call (runtime w) "logs"
           (LogsQuerier.client_search_logs w q s e l) f g)) ->
  P (LogsQuerier.search_logs_with_timerange w data clock).
Proof.
  intros H400 H500 Hcall.
  unfold LogsQuerier.search_logs_with_timerange.
  destruct (py_truthy data) eqn:Ht; cbn [negb]; [| mstep; apply H400].
  destruct data as [| b | z | s | l | d];
    try (unfold py_get, attribute_error; mstep; apply H500).
  unfold py_get. mstep.
  destruct (py_all _); cbn [negb]; [| mstep; apply H400].
  destruct (dict_get d "timerange") as [[| b | z | s | l | d'] |];
    unfold timerange_lookup; mstep; try apply H400; try apply H500.
  destruct (assoc timerange_map s) as [delta |]; mstep; [| apply H400].
  destruct (dt_sub (utcnow clock) delta) as [x | start_time]; mstep;
    [apply H500 |].
  apply (Hcall _ _ _ _
           (fun a0 => JObj [("success", JBool true); _; _; _; ("data", a0)])).
  echo_done.
Qed.

Lemma querier_search_cases (P : M response -> Prop) w data :
  (forall msg, P (ret (error_response 400 msg))) ->
  (forall msg, P (ret (error_response 500 msg))) ->
  (forall q s e l f g,
      (forall r, echoes q s e r (f r)) ->
      P (answered_call (runtime w) "logs"
           (LogsQuerier.client_search_logs w q s e l) f g)) ->
  P (LogsQuerier.search_logs w data).
Proof.
  intros H400 H500 Hcall.
  unfold LogsQuerier.search_logs.
  destruct (py_truthy data) eqn:Ht; cbn [negb]; [| mstep; apply H400].
  destruct data as [| b | z | s | l | d];
    try (unfold py_get, attribute_error; mstep; apply H500).
  unfold py_get. mstep.
  destruct (py_all _); cbn [negb]; [| mstep; apply H400].
  destruct (dict_get d "start_time") as [[| b | z | s | l | d'] |];
    unfold py_replace, attribute_error; mstep; cbn [is_ValueError];
    try apply H500.
  destruct (fromisoformat (runtime w) (replace_Z s)) as [start_dt |];
    mstep; cbn [is_ValueError]; mstep; [| apply H400].
  destruct (dict_get d "end_time") as [[| b | z | s' | l | d'] |];
    mstep; cbn [is_ValueError]; try apply H500.
  destruct (fromisoformat (runtime w) (replace_Z s')) as [end_dt |];
    mstep; cbn [is_ValueError]; mstep; [| apply H400].
  apply (Hcall _ _ _ _
           (fun a0 => JObj [("success", JBool true); _; _; ("data", a0)])).
  echo_done.
Qed.

(** The answer built around a call of the client, by what the client
    came back with. *)
Lemma answered_call_raised rt key t x f g :
  answered_call rt key (t, inl x) f g
  = (t, inr (error_response 500 ("Failed to query Datadog: " ++ str_exn rt x))).
Proof.
  unfold answered_call. rewrite bind_inl, try_inl.
  cbn [trace outcome ret fst snd]. now rewrite app_nil_r.
Qed.

Lemma answered_call_returned rt key t resp n f g :
  py_len_get resp key = ret n ->
  answered_call rt key (t, inr resp) f g = (t, inr (mkResponse 200 (f resp))).
Proof.
  intros Hn. unfold answered_call. rewrite bind_inr, Hn. mstep.
  cbn [trace outcome ret fst snd]. now rewrite app_nil_r.
Qed.

Lemma contract_400 msg : search_contract (ret (error_response 400 msg)).
Proof.
  exists (error_response 400 msg). cbn.
  repeat split; auto; try discriminate. now left.
Qed.

Lemma contract_500 msg : search_contract (ret (error_response 500 msg)).
Proof.
  exists (error_response 500 msg). cbn.
  repeat split; auto; try discriminate. now left.
Qed.

Lemma opsight_call_contract w q s e l f g :
  search_contract
    (answered_call (runtime w) "data" (Opsight.client_search_logs w q s e l) f g).
Proof.
  destruct (opsight_client_cases w q s e l)
    as [[x H] | [(pl & x & H) | (pl & resp & n & code & H & Hn & _)]]; rewrite H.
  - rewrite answered_call_raised. eexists. cbn.
    repeat split; auto; try discriminate. right. left. eauto 10.
  - rewrite answered_call_raised. eexists. cbn.
    repeat split; auto; try discriminate. right. right. eauto 10.
  - rewrite (answered_call_returned _ _ _ _ _ _ _ Hn). eexists. cbn.
    repeat split; auto; try discriminate; eauto 10.
    right. right. eauto 10.
Qed.

Lemma querier_call_contract w q s e l f g :
  search_contract
    (answered_call (runtime w) "logs" (LogsQuerier.client_search_logs w q s e l) f g).
Proof.
  destruct (querier_client_cases w q s e l)
    as [[x H] | (resp & n & code & H & Hn & _)]; rewrite H.
  - rewrite answered_call_raised. eexists. cbn.
    repeat split; auto; try discriminate. right. right. eauto 10.
  - rewrite (answered_call_returned _ _ _ _ _ _ _ Hn). eexists. cbn.
    repeat split; auto; try discriminate; eauto 10.
    right. right. eauto 10.
Qed.

(** X1.  Whatever the request body, the clock and the backend, the two
    search handlers of opsight answer (no exception leaves them) with
    status 200, 400 or 500; a 400 is given before the client is called; a
    200 is given after exactly one call of the client and one request;
    and no run sends more than one request. *)
Theorem X1_opsight_search_contract :
  forall (w : World) (body : json) (clock : Z),
    search_contract (Opsight.search_logs w body clock) /\
    search_contract (Opsight.search_logs_with_timerange w body clock).
Proof.
  intros w body clock. split.
  - apply opsight_search_cases;
      intros; auto using contract_400, contract_500, opsight_call_contract.
  - apply opsight_timerange_cases;
      intros; auto using contract_400, contract_500, opsight_call_contract.
Qed.

(** X2.  The same for the two search handlers of logs_querier. *)
Theorem X2_querier_search_contract :
  forall (w : World) (body : json) (clock : Z),
    search_contract (LogsQuerier.search_logs w body) /\
    search_contract (LogsQuerier.search_logs_with_timerange w body clock).
Proof.
  intros w body clock. split.
  - apply querier_search_cases;
      intros; auto using contract_400, contract_500, querier_call_contract.
  - apply querier_timerange_cases;
      intros; auto using contract_400, contract_500, querier_call_contract.
Qed.

Lemma opsight_client_refused w failure q s e l :
  backend_refuses w failure ->
  (exists x, Opsight.client_search_logs w q s e l = ([ClientSearch q s e l], inl x))
  \/ (exists pl,
        Opsight.client_search_logs w q s e l
        = ([ClientSearch q s e l; HttpPost (v2_search_url w) (v2_payload q s e pl)],
           inl (PlainException
                  ("Error querying Datadog logs: "
                     ++ exn_text (runtime w) (RequestException failure))))).
Proof.
  intros Href. unfold Opsight.client_search_logs. rewrite bind_emit.
  destruct (pure_cases _ (py_min_pure l 1000)) as [[x ->] | [pl ->]]; mstep.
  - left. exists x. reflexivity.
  - right. exists pl. rewrite bind_emit.
    fold (v2_search_url w). fold (v2_payload q s e pl).
    specialize (Href (v2_search_url w) (v2_payload q s e pl)).
    destruct failure as [code |].
    + destruct Href as [Hcode [parsed ->]]. now rewrite Hcode.
    + now rewrite Href.
Qed.

Lemma querier_client_refused w failure q s e l :
  backend_refuses w failure ->
  LogsQuerier.client_search_logs w q s e l
  = ([ClientSearch q s e l; HttpPost (v1_search_url w) (v1_payload q s e l)],
     inl (PlainException
            ("Error querying Datadog logs: "
               ++ exn_text (runtime w) (RequestException failure)))).
Proof.
  intros Href. unfold LogsQuerier.client_search_logs. rewrite !bind_emit.
  fold (v1_search_url w). fold (v1_payload q s e l).
  specialize (Href (v1_search_url w) (v1_payload q s e l)).
  destruct failure as [code |].
  - destruct Href as [Hcode [parsed ->]]. now rewrite Hcode.
  - now rewrite Href.
Qed.

Lemma refusal_reported_pure rt failure (r : response) :
  refusal_reported rt failure (ret r).
Proof. intros (url & p & []). Qed.

Lemma opsight_call_refused w failure q s e l f g :
  backend_refuses w failure ->
  refusal_reported (runtime w) failure
    (answered_call (runtime w) "data" (Opsight.client_search_logs w q s e l) f g).
Proof.
  intros Href.
  destruct (opsight_client_refused w failure q s e l Href) as [[x H] | [pl H]];
    rewrite H, answered_call_raised.
  - intros (url & p & [[=] | []]).
  - intros _. reflexivity.
Qed.

Lemma querier_call_refused w failure q s e l f g :
  backend_refuses w failure ->
  refusal_reported (runtime w) failure
    (answered_call (runtime w) "logs" (LogsQuerier.client_search_logs w q s e l) f g).
Proof.
  intros Href. rewrite (querier_client_refused w failure q s e l Href).
  rewrite answered_call_raised. intros _. reflexivity.
Qed.

(** X3.  When the backend refuses every request (the transport fails, or
    it answers with a 4xx or 5xx status), every run of a search handler
    of either service that got as far as sending its request answers 500
    with "Failed to query Datadog: Error querying Datadog logs: " and the
    text of the request exception. *)
Theorem X3_backend_refusal_is_500 :
  forall (w : World) (body : json) (clock : Z) (failure : option Z),
    backend_refuses w failure ->
    refusal_reported (runtime w) failure (Opsight.search_logs w body clock) /\
    refusal_reported (runtime w) failure
      (Opsight.search_logs_with_timerange w body clock) /\
    refusal_reported (runtime w) failure (LogsQuerier.search_logs w body) /\
    refusal_reported (runtime w) failure
      (LogsQuerier.search_logs_with_timerange w body clock).
Proof.
  intros w body clock failure Href. repeat split.
  - apply opsight_search_cases;
      intros; auto using refusal_reported_pure, opsight_call_refused.
  - apply opsight_timerange_cases;
      intros; auto using refusal_reported_pure, opsight_call_refused.
  - apply querier_search_cases;
      intros; auto using refusal_reported_pure, querier_call_refused.
  - apply querier_timerange_cases;
      intros; auto using refusal_reported_pure, querier_call_refused.
Qed.

Lemma X3_backend_refusal_is_500_witness :
  outcome (Opsight.search_logs_with_timerange down_world
             (JObj [("service", JStr "my-app"); ("timerange", JStr "1h")])
             (clock_at 2024 1 1 12 0 0))
  = inr (error_response 500
           "Failed to query Datadog: Error querying Datadog logs: request failed").
Proof.
  destruct (X3_backend_refusal_is_500 down_world
              (JObj [("service", JStr "my-app"); ("timerange", JStr "1h")])
              (clock_at 2024 1 1 12 0 0) None) as (_ & Hrel & _).
  - intros url payload. reflexivity.
  - apply Hrel. do 2 eexists. vm_compute. right. left. reflexivity.
Defined.

Lemma success_echoes_pure_error w code msg :
  code <> 200 -> success_echoes_backend w (ret (error_response code msg)).
Proof. intros Hc r [= <-] Hs. cbn in Hs. contradiction. Qed.

Lemma opsight_call_echoes w q s e l f g :
  (forall r, echoes q s e r (f r)) ->
  success_echoes_backend w
    (answered_call (runtime w) "data" (Opsight.client_search_logs w q s e l) f g).
Proof.
  intros Hecho.
  destruct (opsight_client_cases w q s e l)
    as [[x H] | [(pl & x & H) | (pl & resp & n & code & H & Hn & Hpost & Hcode)]];
    rewrite H.
  - rewrite answered_call_raised. intros r [= <-] Hs. discriminate Hs.
  - rewrite answered_call_raised. intros r [= <-] Hs. discriminate Hs.
  - rewrite (answered_call_returned _ _ _ _ _ _ _ Hn). intros r [= <-] _.
    exists q, s, e, l, (v2_search_url w), (v2_payload q s e pl), code, resp.
    repeat split; auto.
Qed.

Lemma querier_call_echoes w q s e l f g :
  (forall r, echoes q s e r (f r)) ->
  success_echoes_backend w
    (answered_call (runtime w) "logs" (LogsQuerier.client_search_logs w q s e l) f g).
Proof.
  intros Hecho.
  destruct (querier_client_cases w q s e l)
    as [[x H] | (resp & n & code & H & Hn & Hpost & Hcode)]; rewrite H.
  - rewrite answered_call_raised. intros r [= <-] Hs. discriminate Hs.
  - rewrite (answered_call_returned _ _ _ _ _ _ _ Hn). intros r [= <-] _.
    exists q, s, e, l, (v1_search_url w), (v1_payload q s e l), code, resp.
    repeat split; auto.
Qed.

(** X4.  In both services, a search that is answered 200 made exactly one
    request, which the backend answered with a status outside 400..599
    and a JSON value; the body of the answer has [success: true], echoes
    under [query] and [time_range] the query and the two instants that
    were handed to the client, and carries the backend's JSON value
    unchanged under [data]. *)
Theorem X4_success_envelope_echoes_backend :
  forall (w : World) (body : json) (clock : Z),
    success_echoes_backend w (Opsight.search_logs w body clock) /\
    success_echoes_backend w (Opsight.search_logs_with_timerange w body clock) /\
    success_echoes_backend w (LogsQuerier.search_logs w body) /\
    success_echoes_backend w (LogsQuerier.search_logs_with_timerange w body clock).
Proof.
  intros w body clock.
  assert (H400 : forall msg, success_echoes_backend w (ret (error_response 400 msg)))
    by (intros; now apply success_echoes_pure_error).
  assert (H500 : forall msg, success_echoes_backend w (ret (error_response 500 msg)))
    by (intros; now apply success_echoes_pure_error).
  repeat split.
  - apply opsight_search_cases; auto using opsight_call_echoes.
  - apply opsight_timerange_cases; auto using opsight_call_echoes.
  - apply querier_search_cases; auto using querier_call_echoes.
  - apply querier_timerange_cases; auto using querier_call_echoes.
Qed.

Lemma X4_success_envelope_echoes_backend_witness :
  exists q s e l url p code resp,
    trace (Opsight.search_logs ref_world (JObj [("query", JStr "status:error")])
             (clock_at 2024 1 1 12 0 0))
    = [ClientSearch q s e l; HttpPost url p] /\
    http_post ref_world url p = Response code (inr resp) /\
    status_ok code = true /\
    echoes q s e resp
      (JObj [("success", JBool true); ("query", JStr "status:error");
             ("time_range", JObj [("start", JStr "2024-01-01T11:00:00Z");
                                  ("end", JStr "2024-01-01T11:05:00Z")]);
             ("data", JObj [("data", JList []); ("logs", JList [])])]).
Proof.
  destruct (X4_success_envelope_echoes_backend ref_world
              (JObj [("query", JStr "status:error")])
              (clock_at 2024 1 1 12 0 0)) as (Hsearch & _).
  apply (Hsearch
           (mkResponse 200
              (JObj [("success", JBool true); ("query", JStr "status:error");
                     ("time_range", JObj [("start", JStr "2024-01-01T11:00:00Z");
                                          ("end", JStr "2024-01-01T11:05:00Z")]);
                     ("data", JObj [("data", JList []); ("logs", JList [])])]))).
  - vm_compute. reflexivity.
  - reflexivity.
Defined.

(** ** What the client is called with *)

Lemma append_empty_r (s : string) : s ++ "" = s.
Proof. induction s; cbn; congruence. Qed.

Lemma append_assoc (a b c : string) : (a ++ b) ++ c = a ++ (b ++ c).
Proof. induction a; cbn; congruence. Qed.

Lemma relative_request_calls_client :
  forall (w : World) (d : dict) (clock : Z) (service tok : string)
         (extra : option string) (delta : timedelta),
    dict_get d "service" = Some (JStr service) ->
    service <> "" ->
    dict_get d "timerange" = Some (JStr tok) ->
    assoc timerange_map tok = Some delta ->
    dict_get d "query" = option_map JStr extra ->
    delta <= clock <= max_wall ->
    exists s e,
      starts_with
        (ClientSearch (JStr (service_query service extra)) s e
           (requested_limit d 50))
        (Opsight.search_logs_with_timerange w (JObj d) clock) /\
      starts_with
        (ClientSearch (JStr (service_query service extra)) s e
           (requested_limit d 50))
        (LogsQuerier.search_logs_with_timerange w (JObj d) clock).
Proof.
  intros w d clock service tok extra delta Hsvc Hne Htr Htok Hq Hclock.
  assert (Hspec : spec_duration tok = Some delta)
    by now rewrite <- timerange_map_spec.
  destruct (spec_duration_bounds _ _ Hspec) as [Hdelta Htokne].
  assert (Hsub : dt_sub (utcnow clock) delta
                 = inr (mkDatetime (clock - delta) None))
    by (apply dt_sub_utcnow; lia).
  assert (Hd : py_truthy (JObj d) = true) by (eapply dict_get_nonempty; eauto).
  assert (Hquery :
            (if py_truthy (match dict_get d "query" with
                           | Some v => v
                           | None => JStr ""
                           end)
             then ("service:" ++ service) ++ " "
                    ++ py_str (runtime w)
                         (match dict_get d "query" with
                          | Some v => v
                          | None => JStr ""
                          end)
             else "service:" ++ service)
            = service_query service extra).
  { rewrite Hq. unfold service_query.
    destruct extra as [x |]; cbn [option_map py_truthy py_str String.eqb negb].
    - destruct (String.eqb x ""); cbn [negb];
        [now rewrite append_empty_r | now rewrite append_assoc].
    - now rewrite append_empty_r. }
  do 2 eexists. split.
  - unfold Opsight.search_logs_with_timerange.
    apply starts_try. rewrite Hd. cbn [negb]. unfold py_get.
    rewrite Hsvc, Htr. mstep.
    unfold py_all. cbn [forallb]. rewrite (truthy_str _ Hne), (truthy_str _ Htokne).
    cbn [andb negb]. unfold timerange_lookup.
    rewrite Htok. mstep. rewrite Hsub. mstep.
    cbn [py_str]. rewrite Hquery.
    apply starts_try, starts_bind, opsight_client_search_starts.
  - unfold LogsQuerier.search_logs_with_timerange.
    apply starts_try. rewrite Hd. cbn [negb]. unfold py_get.
    rewrite Hsvc, Htr. mstep.
    unfold py_all. cbn [forallb]. rewrite (truthy_str _ Hne), (truthy_str _ Htokne).
    cbn [andb negb]. unfold timerange_lookup.
    rewrite Htok. mstep. rewrite Hsub. mstep.
    cbn [py_str]. rewrite Hquery.
    apply starts_try, starts_bind, querier_client_search_starts.
Qed.

(** X5.  On the relative-range route of both services, a request with a
    non-empty string [service], a token of the table, and a [query] that
    is absent or a string, calls the client with the filter
    [service:<service>], followed by one space and the query when the
    query is not empty, and with the [limit] of the request, or 50 when
    the request has none. *)
Theorem X5_service_query_and_limit :
  forall (w : World) (d : dict) (clock : Z) (service tok : string)
         (extra : option string) (delta : timedelta),
    dict_get d "service" = Some (JStr service) ->
    service <> "" ->
    dict_get d "timerange" = Some (JStr tok) ->
    assoc timerange_map tok = Some delta ->
    dict_get d "query" = option_map JStr extra ->
    delta <= clock <= max_wall ->
    exists s e,
      starts_with
        (ClientSearch (JStr (service_query service extra)) s e
           (requested_limit d 50))
        (Opsight.search_logs_with_timerange w (JObj d) clock) /\
      starts_with
        (ClientSearch (JStr (service_query service extra)) s e
           (requested_limit d 50))
        (LogsQuerier.search_logs_with_timerange w (JObj d) clock).
Proof. exact relative_request_calls_client. Qed.

Lemma X5_service_query_and_limit_witness :
  exists s e,
    let request :=
      JObj [("service", JStr "my-app"); ("timerange", JStr "1h");
            ("query", JStr "status:error")] in
    starts_with
      (ClientSearch (JStr "service:my-app status:error") s e (JInt 50))
      (Opsight.search_logs_with_timerange ref_world request
         (clock_at 2024 1 1 12 0 0)) /\
    starts_with
      (ClientSearch (JStr "service:my-app status:error") s e (JInt 50))
      (LogsQuerier.search_logs_with_timerange ref_world request
         (clock_at 2024 1 1 12 0 0)).
Proof.
  apply (X5_service_query_and_limit ref_world
           [("service", JStr "my-app"); ("timerange", JStr "1h");
            ("query", JStr "status:error")]
           (clock_at 2024 1 1 12 0 0) "my-app" "1h" (Some "status:error")
           (td_hours 1)).
  - reflexivity.
  - discriminate.
  - reflexivity.
  - reflexivity.
  - reflexivity.
  - vm_compute. split; discriminate.
Defined.

(** ** Bodies and timestamps the handlers refuse *)



(** X7.  On the absolute routes, when both timestamps are strings that
    [fromisoformat] accepts, the client is called with the [isoformat()]
    of the two parsed datetimes in the order given (opsight appends [Z] to
    each): the start is not compared with the end, and an offset is not
    converted to UTC. *)
Theorem X7_absolute_window_passed_through :
  forall (w : World) (d : dict) (clock : Z) (s e : string)
         (start_dt end_dt : datetime),
    dict_get d "start_time" = Some (JStr s) ->
    dict_get d "end_time" = Some (JStr e) ->
    fromisoformat (runtime w) (replace_Z s) = Some start_dt ->
    fromisoformat (runtime w) (replace_Z e) = Some end_dt ->
    (exists query,
        starts_with
          (ClientSearch query (isoformat start_dt ++ "Z") (isoformat end_dt ++ "Z")
             (requested_limit d 5))
          (Opsight.search_logs w (JObj d) clock)) /\
    (forall service,
        dict_get d "service" = Some service ->
        py_truthy service = true ->
        s <> "" -> e <> "" ->
        exists query,
          starts_with
            (ClientSearch query (isoformat start_dt) (isoformat end_dt)
               (requested_limit d 50))
            (LogsQuerier.search_logs w (JObj d))).
Proof.
  intros w d clock s e start_dt end_dt Hs He Hps Hpe.
  assert (Hd : py_truthy (JObj d) = true) by (eapply dict_get_nonempty; eauto).
  assert (Hhas : negb (dict_has d "start_time") || negb (dict_has d "end_time")
                 = false) by (unfold dict_has; now rewrite Hs, He).
  split.
  - eexists. unfold Opsight.search_logs. rewrite data_of_dict.
    apply starts_try. unfold py_get, py_in. mstep. rewrite Hhas, Hs, He. mstep.
    unfold py_replace. mstep. rewrite Hps. mstep. rewrite Hpe. mstep.
    apply starts_try, starts_bind, opsight_client_search_starts.
  - intros service Hsvc Htruthy Hsne Hene. eexists.
    unfold LogsQuerier.search_logs. apply starts_try. rewrite Hd. cbn [negb].
    unfold py_get. rewrite Hsvc, Hs, He. mstep.
    unfold py_all. cbn [forallb].
    rewrite Htruthy, (truthy_str _ Hsne), (truthy_str _ Hene).
    cbn [andb negb]. mstep.
    unfold py_replace. mstep. rewrite Hps. mstep. rewrite Hpe. mstep.
    apply starts_try, starts_bind, querier_client_search_starts.
Qed.

Lemma X7_absolute_window_passed_through_witness :
  let request :=
    [("service", JStr "my-app"); ("start_time", JStr "2024-01-02T00:00:00+05:00");
     ("end_time", JStr "2024-01-01T00:00:00Z")] in
  (exists query,
      starts_with
        (ClientSearch query "2024-01-02T00:00:00+05:00Z"
           "2024-01-01T00:00:00+00:00Z" (JInt 5))
        (Opsight.search_logs ref_world (JObj request) (clock_at 2024 1 1 12 0 0))) /\
  (exists query,
      starts_with
        (ClientSearch query "2024-01-02T00:00:00+05:00"
           "2024-01-01T00:00:00+00:00" (JInt 50))
        (LogsQuerier.search_logs ref_world (JObj request))).
Proof.
  cbv zeta.
  destruct (X7_absolute_window_passed_through ref_world
              [("service", JStr "my-app");
               ("start_time", JStr "2024-01-02T00:00:00+05:00");
               ("end_time", JStr "2024-01-01T00:00:00Z")]
              (clock_at 2024 1 1 12 0 0)
              "2024-01-02T00:00:00+05:00" "2024-01-01T00:00:00Z"
              (mkDatetime (clock_at 2024 1 2 0 0 0) (Some 18000))
              (mkDatetime (clock_at 2024 1 1 0 0 0) (Some 0))
              eq_refl eq_refl eq_refl eq_refl) as [Hops Hq].
  split.
  - exact Hops.
  - apply (Hq (JStr "my-app")); [reflexivity | reflexivity | discriminate | discriminate].
Defined.

(** X8.  A request body that is falsy (no body, [null], [{}], [[]], [0],
    [""], [false]) is answered 400 "JSON payload required" by the three
    service-oriented routes, without a call of the client; the free-form
    route of opsight treats it as the empty request [{}]. *)
Theorem X8_empty_body :
  forall (w : World) (body : json) (clock : Z),
    py_truthy body = false ->
    Opsight.search_logs_with_timerange w body clock
    = ([], inr (error_response 400 "JSON payload required")) /\
    LogsQuerier.search_logs_with_timerange w body clock
    = ([], inr (error_response 400 "JSON payload required")) /\
    LogsQuerier.search_logs w body
    = ([], inr (error_response 400 "JSON payload required")) /\
    Opsight.search_logs w body clock = Opsight.search_logs w (JObj []) clock.
Proof.
  intros w body clock Hf. repeat split.
  - unfold Opsight.search_logs_with_timerange. rewrite Hf. now mstep.
  - unfold LogsQuerier.search_logs_with_timerange. rewrite Hf. now mstep.
  - unfold LogsQuerier.search_logs. rewrite Hf. now mstep.
  - now apply opsight_search_falsy_body.
Qed.

Lemma X8_empty_body_witness :
  Opsight.search_logs_with_timerange ref_world JNull (clock_at 2024 1 1 12 0 0)
  = ([], inr (error_response 400 "JSON payload required")) /\
  LogsQuerier.search_logs_with_timerange ref_world JNull (clock_at 2024 1 1 12 0 0)
  = ([], inr (error_response 400 "JSON payload required")) /\
  LogsQuerier.search_logs ref_world JNull
  = ([], inr (error_response 400 "JSON payload required")) /\
  Opsight.search_logs ref_world JNull (clock_at 2024 1 1 12 0 0)
  = Opsight.search_logs ref_world (JObj []) (clock_at 2024 1 1 12 0 0).
Proof.
  apply (X8_empty_body ref_world JNull (clock_at 2024 1 1 12 0 0)).
  reflexivity.
Defined.

(** X9.  A request body that is truthy but no JSON object (a non-empty
    list or string, a non-zero number, [true]) is answered 500 "Internal
    server error: ..." by all four search routes, without a call of the
    client: [data.get] raises an [AttributeError], which only the outer
    handler catches. *)
Theorem X9_non_object_body_is_500 :
  forall (w : World) (body : json) (clock : Z),
    py_truthy body = true ->
    is_object body = false ->
    let answer :=
      ([], inr (internal_error_answer (runtime w)
                  (Builtin AttributeError (type_name body ++ ".get")))) in
    Opsight.search_logs w body clock = answer /\
    Opsight.search_logs_with_timerange w body clock = answer /\
    LogsQuerier.search_logs w body = answer /\
    LogsQuerier.search_logs_with_timerange w body clock = answer.
Proof.
  intros w body clock Ht Ho answer. subst answer.
  unfold Opsight.search_logs, Opsight.search_logs_with_timerange,
    LogsQuerier.search_logs, LogsQuerier.search_logs_with_timerange.
  rewrite Ht. cbn [negb].
  destruct body; try discriminate Ho;
    unfold py_get, attribute_error; mstep; repeat split; reflexivity.
Qed.

Lemma X9_non_object_body_is_500_witness :
  let body := JList [JObj [("service", JStr "my-app"); ("timerange", JStr "1h")]] in
  let answer :=
    ([], inr (internal_error_answer ref_runtime
                (Builtin AttributeError (type_name body ++ ".get")))) in
  Opsight.search_logs ref_world body (clock_at 2024 1 1 12 0 0) = answer /\
  Opsight.search_logs_with_timerange ref_world body (clock_at 2024 1 1 12 0 0)
  = answer /\
  LogsQuerier.search_logs ref_world body = answer /\
  LogsQuerier.search_logs_with_timerange ref_world body (clock_at 2024 1 1 12 0 0)
  = answer.
Proof.
  apply (X9_non_object_body_is_500 ref_world
           (JList [JObj [("service", JStr "my-app"); ("timerange", JStr "1h")]])
           (clock_at 2024 1 1 12 0 0)); reflexivity.
Defined.

(** ** More on submission *)

Lemma opsight_submit_result w clock ld :
  Opsight.client_submit_log w clock ld
  = (let payload :=
       JList (map JObj
                (Opsight.stamp_logs clock 0
                   match ld with
                   | Opsight.OneLog d => [d]
                   | Opsight.LogList l => l
                   end)) in
     ([ClientSubmit (Opsight.json_of_log_data ld);
       HttpPost (intake_url w) payload],
      match http_post w (intake_url w) payload with
      | TransportFailure =>
          inl (PlainException
                 ("Error submitting logs to Datadog: "
                    ++ exn_text (runtime w) (RequestException None)))
      | Response code _ =>
          if status_ok code then inr true
          else inl (PlainException
                      ("Error submitting logs to Datadog: "
                         ++ exn_text (runtime w) (RequestException (Some code))))
      end)).
Proof.
  cbv zeta. unfold Opsight.client_submit_log. rewrite !bind_emit.
  fold (intake_url w).
  destruct (http_post w _ _) as [| code parsed]; [reflexivity |].
  now destruct (status_ok code).
Qed.

(** X10.  [submit_logs] answers 400 "JSON payload with 'logs' array
    required", without a call of the client, when the body is falsy or is
    an object that has no [logs] key. *)
Theorem X10_submit_requires_logs :
  forall (w : World) (data : json) (clock : nat -> Z),
    py_truthy data = false
    \/ (exists d, data = JObj d /\ dict_get d "logs" = None) ->
    Opsight.submit_logs w data clock
    = ([], inr (error_response 400 "JSON payload with 'logs' array required")).
Proof.
  intros w data clock [Hf | (d & -> & Hno)]; unfold Opsight.submit_logs.
  - rewrite Hf. now mstep.
  - destruct (py_truthy (JObj d)); cbn [negb]; [| now mstep].
    unfold py_in, dict_has. rewrite Hno. now mstep.
Qed.

Lemma X10_submit_requires_logs_witness :
  Opsight.submit_logs ref_world
    (JObj [("log", JList [JObj [("message", JStr "a")]])])
    (fun _ => clock_at 2024 1 1 12 0 0)
  = ([], inr (error_response 400 "JSON payload with 'logs' array required")).
Proof.
  apply (X10_submit_requires_logs ref_world
           (JObj [("log", JList [JObj [("message", JStr "a")]])])).
  right. eexists. split; reflexivity.
Defined.

Lemma process_logs_first_offender w (good : list json) bad rest :
  forallb well_formed_entry good = true ->
  well_formed_entry bad = false ->
  exists r, Opsight.process_logs w (good ++ bad :: rest)%list = inl r
            /\ r = bad_entry_answer bad.
Proof.
  intros Hgood Hbad. induction good as [| g good IH]; cbn [app].
  - unfold bad_entry_answer.
    destruct bad as [| b | z | s | l | d]; cbn [Opsight.process_logs is_object];
      try (eexists; split; reflexivity).
    cbn [well_formed_entry] in Hbad. rewrite Hbad. cbn [negb].
    eexists; split; reflexivity.
  - cbn [forallb] in Hgood. apply andb_prop in Hgood as [Hg Hgood].
    destruct g as [| b | z | s | l | d]; try discriminate Hg.
    cbn [well_formed_entry] in Hg. cbn [Opsight.process_logs].
    rewrite Hg. cbn [negb].
    destruct (IH Hgood) as (r & -> & ->). eexists; split; reflexivity.
Qed.

(** X11.  [submit_logs] checks the entries in order and stops at the
    first one that is not an object with a [message]: the answer is the
    400 "Each log entry must be a JSON object" when that entry is no
    object, the 400 "Each log entry must contain a 'message' field" when
    it is an object, whatever comes after it; the client is not called. *)
Theorem X11_first_bad_entry_decides :
  forall (w : World) (d : dict) (v : json) (good : list json) (bad : json)
         (rest : list json) (clock : nat -> Z),
    dict_get d "logs" = Some v ->
    as_list v = (good ++ bad :: rest)%list ->
    forallb well_formed_entry good = true ->
    well_formed_entry bad = false ->
    Opsight.submit_logs w (JObj d) clock = ([], inr (bad_entry_answer bad)).
Proof.
  intros w d v good bad rest clock Hlogs Hsplit Hgood Hbad.
  destruct (process_logs_first_offender w good bad rest Hgood Hbad)
    as (r & Hr & ->).
  unfold Opsight.submit_logs.
  rewrite (dict_get_nonempty _ _ _ Hlogs). cbn [negb].
  unfold py_in, py_item, dict_has. rewrite Hlogs. mstep.
  rewrite Hsplit, Hr. now mstep.
Qed.

Lemma X11_first_bad_entry_decides_witness :
  Opsight.submit_logs ref_world
    (JObj [("logs", JList [JObj [("message", JStr "fine")];
                           JStr "not an object";
                           JObj [("service", JStr "no message")]])])
    (fun _ => clock_at 2024 1 1 12 0 0)
  = ([], inr (error_response 400 "Each log entry must be a JSON object")).
Proof.
  apply (X11_first_bad_entry_decides ref_world
           [("logs", JList [JObj [("message", JStr "fine")];
                            JStr "not an object";
                            JObj [("service", JStr "no message")]])]
           (JList [JObj [("message", JStr "fine")];
                   JStr "not an object";
                   JObj [("service", JStr "no message")]])
           [JObj [("message", JStr "fine")]]
           (JStr "not an object")
           [JObj [("service", JStr "no message")]]);
    reflexivity.
Defined.

(** X12.  A batch whose entries are all objects with a [message], the
    empty batch included, is sent in one request.  When the backend
    answers with a status outside 400..599 the answer is 200
    "Successfully submitted N log(s)" with N the number of entries; when
    the backend refuses, the answer is 500 "Failed to submit logs to
    Datadog: Error submitting logs to Datadog: ..." and nothing is sent
    again. *)
Theorem X12_submit_outcome :
  forall (w : World) (d : dict) (v : json) (logs : list dict) (clock : nat -> Z),
    dict_get d "logs" = Some v ->
    as_list v = map JObj logs ->
    (forall log, In log logs -> dict_has log "message" = true) ->
    exists handed payload,
      trace (Opsight.submit_logs w (JObj d) clock)
      = [ClientSubmit handed; HttpPost (intake_url w) payload] /\
      (backend_accepts w ->
       outcome (Opsight.submit_logs w (JObj d) clock)
       = inr (submitted_answer (List.length logs))) /\
      (forall failure,
          backend_refuses w failure ->
          outcome (Opsight.submit_logs w (JObj d) clock)
          = inr (submit_refused_answer (runtime w) failure)).
Proof.
  intros w d v logs clock Hlogs Hentries Hmsg.
  set (named := map (Opsight.namespace_service w) logs).
  assert (Hrun :
            Opsight.submit_logs w (JObj d) clock
            = try_except
                (try_except
                   (_ <- Opsight.client_submit_log w clock (Opsight.LogList named) ;;
                    ret (mkResponse 200
                           (JObj [("success", JBool true);
                                  ("message",
                                   JStr ("Successfully submitted "
                                           ++ py_str (runtime w)
                                                (JInt (Z.of_nat (List.length named)))
                                           ++ " log(s)"))])))
                   any_Exception
                   (fun e => ret (error_response 500
                                    ("Failed to submit logs to Datadog: "
                                       ++ str_exn (runtime w) e))))
                any_Exception
                (fun e => ret (error_response 500
                                 ("Internal server error: "
                                    ++ str_exn (runtime w) e)))).
  { unfold Opsight.submit_logs.
    rewrite (dict_get_nonempty _ _ _ Hlogs). cbn [negb].
    unfold py_in, py_item, dict_has. rewrite Hlogs. mstep.
    rewrite Hentries, (process_logs_accepts _ _ Hmsg). reflexivity. }
  rewrite Hrun, opsight_submit_result. cbv zeta.
  set (payload := JList (map JObj (Opsight.stamp_logs clock 0 named))).
  exists (JList (map JObj named)), payload.
  assert (Hlen : List.length named = List.length logs)
    by (unfold named; apply length_map).
  split; [| split].
  - destruct (http_post w (intake_url w) payload) as [| code parsed];
      [| destruct (status_ok code)];
      rewrite ?bind_inl, ?bind_inr, ?try_inl, ?try_inr;
      cbn [trace outcome ret fst snd app]; rewrite ?try_inr; reflexivity.
  - intros Hacc. destruct (Hacc (intake_url w) payload) as (code & parsed & -> & ->).
    rewrite bind_inr. cbn [trace outcome ret fst snd app]. rewrite !try_inr.
    cbn [outcome snd py_str]. now rewrite Hlen.
  - intros failure Href. specialize (Href (intake_url w) payload).
    destruct failure as [code |].
    + destruct Href as [Hcode [parsed ->]]. rewrite Hcode.
      rewrite bind_inl, try_inl. cbn [trace outcome ret fst snd app].
      rewrite try_inr. reflexivity.
    + rewrite Href. rewrite bind_inl, try_inl. cbn [trace outcome ret fst snd app].
      rewrite try_inr. reflexivity.
Qed.

Lemma X12_submit_outcome_witness :
  exists handed payload,
    trace (Opsight.submit_logs ref_world (JObj [("logs", JList [])])
             (fun _ => clock_at 2024 1 1 12 0 0))
    = [ClientSubmit handed; HttpPost (intake_url ref_world) payload] /\
    outcome (Opsight.submit_logs ref_world (JObj [("logs", JList [])])
               (fun _ => clock_at 2024 1 1 12 0 0))
    = inr (submitted_answer 0).
Proof.
  destruct (X12_submit_outcome ref_world [("logs", JList [])] (JList []) []
              (fun _ => clock_at 2024 1 1 12 0 0) eq_refl eq_refl)
    as (handed & payload & Htrace & Hok & _).
  - intros log [].
  - exists handed, payload. split; [exact Htrace |].
    apply Hok. intros url p. exists 200, (inr (JObj [("data", JList []); ("logs", JList [])])).
    split; reflexivity.
Defined.

Lemma dict_set_has (d : dict) k v : dict_has (dict_set d k v) k = true.
Proof. unfold dict_has. rewrite dict_get_set. now rewrite String.eqb_refl. Qed.

Lemma dict_get_set_other (d : dict) k k' v :
  k' <> k -> dict_get (dict_set d k v) k' = dict_get d k'.
Proof.
  intros Hne. rewrite dict_get_set.
  destruct (String.eqb_spec k k'); [congruence | reflexivity].
Qed.

Lemma stamp_logs_stamped clock n (logs : list dict) :
  Forall2 (stamped clock) logs (Opsight.stamp_logs clock n logs).
Proof.
  revert n. induction logs as [| log r IH]; intros n; cbn [Opsight.stamp_logs].
  - constructor.
  - destruct (dict_has log "timestamp") eqn:Hts; constructor; auto.
    + repeat split; auto. intros; congruence.
    + repeat split.
      * apply dict_set_has.
      * intros; congruence.
      * intros _. exists n. rewrite dict_get_set. now rewrite String.eqb_refl.
      * intros k Hk. now apply dict_get_set_other.
Qed.

(** X13.  [submit_log] sends its entries in one request, as many as it
    was given and in the same order, each with a [timestamp]: an entry
    that came with one goes out unchanged, an entry that came without one
    gets a reading of the UTC clock in ISO form followed by [Z], and no
    other field of any entry changes.  This holds for a list of entries
    and for a single entry. *)
Theorem X13_submit_log_stamps_missing_timestamps :
  forall (w : World) (clock : nat -> Z) (logs : list dict) (log : dict),
    (exists sent,
        trace (Opsight.client_submit_log w clock (Opsight.LogList logs))
        = [ClientSubmit (JList (map JObj logs));
           HttpPost (intake_url w) (JList (map JObj sent))] /\
        Forall2 (stamped clock) logs sent) /\
    (exists out,
        trace (Opsight.client_submit_log w clock (Opsight.OneLog log))
        = [ClientSubmit (JObj log); HttpPost (intake_url w) (JList [JObj out])] /\
        stamped clock log out).
Proof.
  intros w clock logs log. split.
  - exists (Opsight.stamp_logs clock 0 logs). split.
    + apply opsight_submit_trace.
    + apply stamp_logs_stamped.
  - pose proof (stamp_logs_stamped clock 0 [log]) as H.
    rewrite opsight_submit_trace. cbn [Opsight.stamp_logs] in *.
    destruct (dict_has log "timestamp");
      apply Forall2_cons_iff in H as [H _];
      eexists; (split; [reflexivity | exact H]).
Qed.

Lemma X13_submit_log_stamps_missing_timestamps_witness :
  exists sent,
    trace (Opsight.client_submit_log ref_world
             (fun n => clock_at 2024 1 1 12 0 (Z.of_nat n))
             (Opsight.LogList
                [[("message", JStr "a"); ("timestamp", JStr "2023-12-31T00:00:00Z")];
                 [("message", JStr "b")]]))
    = [ClientSubmit
         (JList (map JObj
                   [[("message", JStr "a");
                     ("timestamp", JStr "2023-12-31T00:00:00Z")];
                    [("message", JStr "b")]]));
       HttpPost (intake_url ref_world) (JList (map JObj sent))] /\
    Forall2 (stamped (fun n => clock_at 2024 1 1 12 0 (Z.of_nat n)))
      [[("message", JStr "a"); ("timestamp", JStr "2023-12-31T00:00:00Z")];
       [("message", JStr "b")]]
      sent.
Proof.
  exact (proj1 (X13_submit_log_stamps_missing_timestamps ref_world
                  (fun n => clock_at 2024 1 1 12 0 (Z.of_nat n))
                  [[("message", JStr "a");
                    ("timestamp", JStr "2023-12-31T00:00:00Z")];
                   [("message", JStr "b")]]
                  [])).
Defined.

Lemma namespace_service_namespaced w (log : dict) :
  (exists s, dict_get (Opsight.namespace_service w log) "service" = Some (JStr s)
             /\ prefix "opsight" s = true) /\
  (forall k, k <> "service" ->
             dict_get (Opsight.namespace_service w log) k = dict_get log k).
Proof.
  unfold Opsight.namespace_service.
  destruct (dict_get log "service") as [v |] eqn:Hs.
  - destruct (Opsight.is_opsight v) eqn:Hv; cbn [negb].
    + split; [| reflexivity].
      destruct v as [| b | z | s | l | d]; try discriminate Hv.
      cbn [Opsight.is_opsight] in Hv. apply String.eqb_eq in Hv. subst s.
      exists "opsight". split; [exact Hs | reflexivity].
    + split.
      * eexists. rewrite dict_get_set, String.eqb_refl. split; reflexivity.
      * intros k Hk. now apply dict_get_set_other.
  - split.
    + eexists. rewrite dict_get_set, String.eqb_refl. split; reflexivity.
    + intros k Hk. now apply dict_get_set_other.
Qed.

Lemma stamped_namespaced w clock n (logs : list dict) :
  Forall2 namespaced logs
    (Opsight.stamp_logs clock n (map (Opsight.namespace_service w) logs)).
Proof.
  pose proof (stamp_logs_stamped clock n (map (Opsight.namespace_service w) logs))
    as Hst.
  remember (Opsight.stamp_logs clock n (map (Opsight.namespace_service w) logs))
    as sent eqn:Hsent. clear Hsent.
  revert sent Hst. induction logs as [| log r IH]; intros sent Hst; cbn [map] in Hst.
  - inversion Hst. constructor.
  - inversion Hst as [| ? out ? rest Hout Hrest]; subst.
    constructor; [| now apply IH].
    destruct Hout as (_ & _ & _ & Hkeep).
    destruct (namespace_service_namespaced w log) as [(s & Hsvc & Hpre) Hother].
    split.
    + exists s. split; [| exact Hpre].
      rewrite Hkeep by discriminate. exact Hsvc.
    + intros k Hk1 Hk2. rewrite Hkeep by exact Hk2. now apply Hother.
Qed.

(** X14.  Every entry that [submit_logs] sends for a batch of objects
    with a [message] has a [service] that is a string beginning with
    [opsight], and carries every field other than [service] and
    [timestamp], the [message] among them, exactly as it was submitted. *)
Theorem X14_sent_entries_are_namespaced :
  forall (w : World) (d : dict) (v : json) (logs : list dict) (clock : nat -> Z),
    dict_get d "logs" = Some v ->
    as_list v = map JObj logs ->
    (forall log, In log logs -> dict_has log "message" = true) ->
    exists handed sent,
      trace (Opsight.submit_logs w (JObj d) clock)
      = [ClientSubmit handed; HttpPost (intake_url w) (JList (map JObj sent))] /\
      Forall2 namespaced logs sent.
Proof.
  intros w d v logs clock Hlogs Hentries Hmsg.
  set (named := map (Opsight.namespace_service w) logs).
  exists (JList (map JObj named)), (Opsight.stamp_logs clock 0 named).
  split; [| apply stamped_namespaced].
  unfold Opsight.submit_logs.
  rewrite (dict_get_nonempty _ _ _ Hlogs). cbn [negb].
  unfold py_in, py_item, dict_has. rewrite Hlogs. mstep.
  rewrite Hentries, (process_logs_accepts _ _ Hmsg). fold named.
  rewrite trace_try_pure by (intros; reflexivity).
  rewrite trace_try_pure by (intros; reflexivity).
  rewrite trace_bind_pure by (intros; reflexivity).
  apply opsight_submit_trace.
Qed.

Lemma X14_sent_entries_are_namespaced_witness :
  exists handed sent,
    let entries := [[("message", JStr "a"); ("service", JInt 7); ("host", JStr "h")];
                    [("message", JStr "b")]] in
    trace (Opsight.submit_logs ref_world
             (JObj [("logs", JList (map JObj entries))])
             (fun _ => clock_at 2024 1 1 12 0 0))
    = [ClientSubmit handed;
       HttpPost (intake_url ref_world) (JList (map JObj sent))] /\
    Forall2 namespaced entries sent.
Proof.
  apply (X14_sent_entries_are_namespaced ref_world
           [("logs", JList (map JObj
                              [[("message", JStr "a"); ("service", JInt 7);
                                ("host", JStr "h")];
                               [("message", JStr "b")]]))]
           (JList (map JObj
                     [[("message", JStr "a"); ("service", JInt 7);
                       ("host", JStr "h")];
                      [("message", JStr "b")]]))
           [[("message", JStr "a"); ("service", JInt 7); ("host", JStr "h")];
            [("message", JStr "b")]]).
  - reflexivity.
  - reflexivity.
  - intros log [<- | [<- | []]]; reflexivity.
Defined.

(** ** More on the heartbeat *)

Lemma count_events_app p t1 t2 :
  count_events p (t1 ++ t2)%list = (count_events p t1 + count_events p t2)%nat.
Proof. unfold count_events. now rewrite filter_app, length_app. Qed.

Lemma free_of_bind {A B} p (m : M A) (f : A -> M B) :
  free_of p m -> (forall a, free_of p (f a)) -> free_of p (bind m f).
Proof.
  unfold free_of. intros Hm Hf. rewrite trace_bind, count_events_app, Hm.
  destruct (outcome m); [reflexivity | apply Hf].
Qed.

Lemma free_of_try {A} p (m : M A) cls (h : exn -> M A) :
  free_of p m -> (forall e, free_of p (h e)) -> free_of p (try_except m cls h).
Proof.
  unfold free_of. intros Hm Hh. rewrite trace_try, count_events_app, Hm.
  destruct (outcome m) as [e | a]; [destruct (cls e) |]; try reflexivity.
  apply Hh.
Qed.

Lemma free_of_step p env s ev : p ev = false -> free_of p (step env s ev).
Proof.
  intros H. unfold free_of, step.
  destruct (step_fails env s); [reflexivity |].
  unfold count_events. cbn [emit trace fst filter]. now rewrite H.
Qed.

Lemma free_of_sleep p secs : p (Sleep secs) = false -> free_of p (time_sleep secs).
Proof.
  intros H. unfold free_of, time_sleep.
  destruct (secs <? 0); [reflexivity |].
  unfold count_events. cbn [emit trace fst filter]. now rewrite H.
Qed.







Lemma querier_tick_local w env :
  free_of is_backend_traffic (LogsQuerier.periodic_tick w env).
Proof.
  unfold LogsQuerier.periodic_tick.
  apply free_of_try.
  - apply free_of_bind; [now apply free_of_step | intros _].
    now apply free_of_sleep.
  - intros e. apply free_of_bind; [now apply free_of_step | intros _].
    now apply free_of_sleep.
Qed.

(** X16.  The heartbeat of logs_querier never talks to the backend: in
    any number of iterations, whatever they meet, it makes no call of the
    client and sends no request; its status record goes to the local log
    only. *)
Theorem X16_querier_heartbeat_is_local :
  forall (w : World) (envs : list tick_env),
    count_events is_backend_traffic (trace (LogsQuerier.periodic_logger w envs))
    = 0%nat.
Proof.
  intros w envs. induction envs as [| env later IH].
  - reflexivity.
  - cbn [LogsQuerier.periodic_logger].
    apply free_of_bind; [apply querier_tick_local | intros _; exact IH].
Qed.



(** ** The JSON formatter of opsight *)

Lemma update_dict_other (d other : dict) k :
  dict_get other k = None ->
  dict_get (update_dict d other) k = dict_get d k.
Proof.
  unfold update_dict. revert d.
  induction other as [| [k0 v0] r IH]; intros d Hno; cbn [fold_left fst snd].
  - reflexivity.
  - cbn [dict_get] in Hno. destruct (String.eqb_spec k0 k) as [-> | Hne];
      [discriminate |].
    rewrite (IH _ Hno). apply dict_get_set_other. congruence.
Qed.

Lemma copy_loop_keeps (attrs acc : dict) k :
  Opsight.is_reserved k = true \/ ~ In k (map fst attrs) ->
  dict_get
    (fold_left
       (fun acc kv =>
          if negb (Opsight.is_reserved (fst kv))
          then dict_set acc (fst kv) (snd kv) else acc)
       attrs acc) k
  = dict_get acc k.
Proof.
  revert acc. induction attrs as [| [k0 v0] r IH]; intros acc Hk;
    cbn [fold_left fst snd].
  - reflexivity.
  - rewrite IH.
    + destruct (Opsight.is_reserved k0) eqn:Hr0; cbn [negb]; [reflexivity |].
      apply dict_get_set_other. intros ->.
      destruct Hk as [Hk | Hk]; [congruence |]. apply Hk. now left.
    + destruct Hk as [Hk | Hk]; [now left | right].
      intros Hin. apply Hk. now right.
Qed.

Lemma copy_loop_sets (attrs acc : dict) k v :
  NoDup (map fst attrs) ->
  In (k, v) attrs ->
  Opsight.is_reserved k = false ->
  dict_get
    (fold_left
       (fun acc kv =>
          if negb (Opsight.is_reserved (fst kv))
          then dict_set acc (fst kv) (snd kv) else acc)
       attrs acc) k
  = Some v.
Proof.
  revert acc. induction attrs as [| [k0 v0] r IH]; intros acc Hnd Hin Hres;
    [contradiction |].
  cbn [map fst] in Hnd. inversion Hnd as [| ? ? Hfresh Hnd']; subst.
  cbn [fold_left fst snd].
  destruct Hin as [[= -> ->] | Hin].
  - rewrite copy_loop_keeps by now right.
    rewrite Hres. cbn [negb]. rewrite dict_get_set. now rewrite String.eqb_refl.
  - now apply IH.
Qed.

Lemma reserved_not_fixed k :
  Opsight.is_reserved k = true -> k <> "message" ->
  forall ts lv lg msg,
    dict_get [("timestamp", ts); ("level", lv); ("logger", lg);
              ("message", msg); ("service", JStr "opsight");
              ("version", JStr "1.0.0")] k = None.
Proof.
  intros Hres Hne ts lv lg msg. cbn [dict_get].
  repeat match goal with
         | |- context [String.eqb ?lit k] =>
             destruct (String.eqb_spec lit k) as [<- | ?];
             [first [discriminate Hres | congruence] |]
         end.
  reflexivity.
Qed.

(** X18.  The entry that opsight's formatter writes for a record carries
    every attribute of the record whose name is not in the formatter's
    skip list, with the record's value (so a field passed through
    [extra=] shows, and one named [service], [level] or [timestamp]
    replaces the formatter's own); it carries no skipped attribute other
    than [message] (no [lineno], [process], [pathname], ...); and its
    [message] is the text of [getMessage()].  The attribute names of a
    record are distinct; an [exception] text, when there is one,
    replaces an attribute named [exception]; a record that has the
    attribute [extra] can bring skipped names in through it. *)
Theorem X18_formatter_copies_extra_fields :
  forall (clock : Z) (record : log_record),
    NoDup (map fst (attributes record)) ->
    let entry := Opsight.format clock record in
    (forall k v,
        In (k, v) (attributes record) ->
        Opsight.is_reserved k = false ->
        (k = "exception" -> exc_text record = None) ->
        dict_get entry k = Some v) /\
    (forall k,
        Opsight.is_reserved k = true ->
        k <> "message" ->
        (forall extra, extra_attr record = Some extra -> dict_get extra k = None) ->
        dict_get entry k = None) /\
    ((forall extra, extra_attr record = Some extra ->
                    dict_get extra "message" = None) ->
     dict_get entry "message" = Some (JStr (getMessage record))).
Proof.
  intros clock record Hnd entry. subst entry. unfold Opsight.format.
  repeat split.
  - intros k v Hin Hres Hexc.
    destruct (exc_text record) as [text |].
    + rewrite dict_get_set_other
        by (intros ->; specialize (Hexc eq_refl); discriminate).
      now apply copy_loop_sets.
    + now apply copy_loop_sets.
  - intros k Hres Hne Hextra.
    assert (Hexc : k <> "exception") by (intros ->; discriminate Hres).
    assert (Hloop :
              forall acc, dict_get acc k = None ->
                match exc_text record with
                | Some text =>
                    dict_get
                      (dict_set
                         (fold_left
                            (fun acc kv =>
                               if negb (Opsight.is_reserved (fst kv))
                               then dict_set acc (fst kv) (snd kv) else acc)
                            (attributes record) acc) "exception" (JStr text)) k
                | None =>
                    dict_get
                      (fold_left
                         (fun acc kv =>
                            if negb (Opsight.is_reserved (fst kv))
                            then dict_set acc (fst kv) (snd kv) else acc)
                         (attributes record) acc) k
                end = None).
    { intros acc Hacc. destruct (exc_text record);
        rewrite ?dict_get_set_other by (exact Hexc);
        (rewrite copy_loop_keeps by (now left)); exact Hacc. }
    destruct (exc_text record) as [text |] eqn:Hx;
      destruct (extra_attr record) as [extra |] eqn:He;
      try destruct (py_truthy (JObj extra));
      apply Hloop;
      rewrite ?update_dict_other by (now apply Hextra);
      now apply reserved_not_fixed.
  - intros Hextra.
    assert (Hbase :
              forall acc,
                dict_get acc "message" = Some (JStr (getMessage record)) ->
                match exc_text record with
                | Some text =>
                    dict_get
                      (dict_set
                         (fold_left
                            (fun acc kv =>
                               if negb (Opsight.is_reserved (fst kv))
                               then dict_set acc (fst kv) (snd kv) else acc)
                            (attributes record) acc) "exception" (JStr text))
                      "message"
                | None =>
                    dict_get
                      (fold_left
                         (fun acc kv =>
                            if negb (Opsight.is_reserved (fst kv))
                            then dict_set acc (fst kv) (snd kv) else acc)
                         (attributes record) acc) "message"
                end = Some (JStr (getMessage record))).
    { intros acc Hacc. destruct (exc_text record);
        rewrite ?dict_get_set_other by discriminate;
        (rewrite copy_loop_keeps by (now left)); exact Hacc. }
    destruct (exc_text record) as [text |] eqn:Hx;
      destruct (extra_attr record) as [extra |] eqn:He;
      try destruct (py_truthy (JObj extra));
      apply Hbase;
      rewrite ?update_dict_other by (now apply Hextra);
      reflexivity.
Qed.

Lemma X18_formatter_copies_extra_fields_witness :
  let entry := Opsight.format (clock_at 2024 1 1 12 0 0) status_record in
  dict_get entry "hostname" = Some (JStr "host-1") /\
  dict_get entry "timestamp" = Some (JStr "2024-01-01T11:59:59Z") /\
  dict_get entry "lineno" = None /\
  dict_get entry "message" = Some (JStr "Periodic status check").
Proof.
  destruct (X18_formatter_copies_extra_fields (clock_at 2024 1 1 12 0 0)
              status_record) as (Hcopy & Hskip & Hmsg).
  - repeat constructor; cbn; intuition discriminate.
  - cbv zeta. split; [| split; [| split]].
    + apply Hcopy; [cbn; tauto | reflexivity | discriminate].
    + apply Hcopy; [cbn; tauto | reflexivity | discriminate].
    + apply Hskip; [reflexivity | discriminate | discriminate].
    + apply Hmsg. discriminate.
Defined.

(** ** What the command line sends *)

Lemma cli_choice_in_table tok :
  In tok Cli.timerange_choices ->
  exists delta, assoc timerange_map tok = Some delta /\ delta <= td_days 7.
Proof.
  intros Hin. cbn in Hin.
  repeat destruct Hin as [<- | Hin]; try contradiction;
    eexists; (split; [reflexivity | vm_compute; discriminate]).
Qed.

Lemma cli_timerange_payload_fields service timerange limit query :
  let d := Cli.search_timerange_payload service timerange limit query in
  exists extra,
    dict_get d "service" = Some (JStr service) /\
    dict_get d "timerange" = Some (JStr timerange) /\
    dict_get d "query" = option_map JStr extra /\
    requested_limit d 50 = JInt limit /\
    service_query service extra = service_query service query.
Proof.
  cbv zeta. unfold Cli.search_timerange_payload, Cli.with_query, requested_limit.
  destruct query as [q |]; [| exists None; repeat split; reflexivity].
  cbn [py_truthy]. destruct (String.eqb_spec q "") as [-> | Hq]; cbn [negb].
  - exists None. repeat split; reflexivity.
  - exists (Some q). repeat split; reflexivity.
Qed.

(** X19.  Every request the [search-timerange] command of the CLI can
    build for a non-empty service (its [--timerange] is one of 15m, 30m,
    1h, 4h, 1d, 7d) passes the validation of the relative-range route of
    both services: the client is called with the filter
    [service:<service>], followed by the [--query] when one was given
    and is not empty, and with the [--limit].  The same holds for the
    fixed request of [quick-search] (1h, limit 5). *)
Theorem X19_cli_relative_requests_accepted :
  forall (w : World) (clock : Z) (service timerange : string) (limit : Z)
         (query : option string),
    service <> "" ->
    In timerange Cli.timerange_choices ->
    td_days 7 <= clock <= max_wall ->
    (exists s e,
        starts_with
          (ClientSearch (JStr (service_query service query)) s e (JInt limit))
          (Opsight.search_logs_with_timerange w
             (JObj (Cli.search_timerange_payload service timerange limit query))
             clock) /\
        starts_with
          (ClientSearch (JStr (service_query service query)) s e (JInt limit))
          (LogsQuerier.search_logs_with_timerange w
             (JObj (Cli.search_timerange_payload service timerange limit query))
             clock)) /\
    (exists s e,
        starts_with
          (ClientSearch (JStr (service_query service None)) s e (JInt 5))
          (Opsight.search_logs_with_timerange w
             (JObj (Cli.quick_search_payload service)) clock) /\
        starts_with
          (ClientSearch (JStr (service_query service None)) s e (JInt 5))
          (LogsQuerier.search_logs_with_timerange w
             (JObj (Cli.quick_search_payload service)) clock)).
Proof.
  intros w clock service timerange limit query Hne Hin Hclock. split.
  - destruct (cli_choice_in_table _ Hin) as (delta & Htok & Hdelta).
    destruct (cli_timerange_payload_fields service timerange limit query)
      as (extra & Hsvc & Htr & Hq & Hlim & Hsq).
    rewrite <- Hsq, <- Hlim.
    apply (relative_request_calls_client w _ clock service timerange extra delta);
      auto; lia.
  - apply (relative_request_calls_client w (Cli.quick_search_payload service)
             clock service "1h" None (td_hours 1));
      try reflexivity; auto.
    assert (td_hours 1 <= td_days 7) by (vm_compute; discriminate). lia.
Qed.

Lemma X19_cli_relative_requests_accepted_witness :
  (exists s e,
      starts_with
        (ClientSearch (JStr "service:my-app status:error") s e (JInt 20))
        (Opsight.search_logs_with_timerange ref_world
           (JObj (Cli.search_timerange_payload "my-app" "4h" 20
                    (Some "status:error")))
           (clock_at 2024 1 1 12 0 0)) /\
      starts_with
        (ClientSearch (JStr "service:my-app status:error") s e (JInt 20))
        (LogsQuerier.search_logs_with_timerange ref_world
           (JObj (Cli.search_timerange_payload "my-app" "4h" 20
                    (Some "status:error")))
           (clock_at 2024 1 1 12 0 0))) /\
  (exists s e,
      starts_with
        (ClientSearch (JStr "service:my-app") s e (JInt 5))
        (Opsight.search_logs_with_timerange ref_world
           (JObj (Cli.quick_search_payload "my-app"))
           (clock_at 2024 1 1 12 0 0)) /\
      starts_with
        (ClientSearch (JStr "service:my-app") s e (JInt 5))
        (LogsQuerier.search_logs_with_timerange ref_world
           (JObj (Cli.quick_search_payload "my-app"))
           (clock_at 2024 1 1 12 0 0))).
Proof.
  apply (X19_cli_relative_requests_accepted ref_world
           (clock_at 2024 1 1 12 0 0) "my-app" "4h" 20 (Some "status:error")).
  - discriminate.
  - cbn. tauto.
  - vm_compute. split; discriminate.
Defined.

Lemma cli_search_payload_fields service start_ end_ limit query :
  let d := Cli.search_payload service start_ end_ limit query in
  exists extra,
    dict_get d "service" = Some (JStr service) /\
    dict_get d "start_time" = Some (JStr start_) /\
    dict_get d "end_time" = Some (JStr end_) /\
    dict_get d "limit" = Some (JInt limit) /\
    dict_get d "query" = option_map JStr extra /\
    service_query service extra = service_query service query /\
    raw_query extra = raw_query query /\
    extra <> Some "".
Proof.
  cbv zeta. unfold Cli.search_payload, Cli.with_query.
  destruct query as [q |];
    [| exists None; repeat split; try reflexivity; discriminate].
  cbn [py_truthy]. destruct (String.eqb_spec q "") as [-> | Hq]; cbn [negb].
  - exists None. repeat split; try reflexivity; discriminate.
  - exists (Some q). repeat split; try reflexivity. congruence.
Qed.

(** X20.  The [search] command of the CLI builds one request for both
    services, and they read it differently.  logs_querier searches with
    the filter [service:<service>] (and the [--query] after it); the
    [/logs/search] of opsight never reads [service]: it searches with the
    [--query] alone, and with "datadog-agent" when none was given.  Both
    hand on the two timestamps as parsed and the [--limit]. *)
Theorem X20_cli_search_read_by_both_services :
  forall (w : World) (clock : Z) (service start_ end_ : string) (limit : Z)
         (query : option string) (start_dt end_dt : datetime),
    service <> "" -> start_ <> "" -> end_ <> "" ->
    fromisoformat (runtime w) (replace_Z start_) = Some start_dt ->
    fromisoformat (runtime w) (replace_Z end_) = Some end_dt ->
    let payload := JObj (Cli.search_payload service start_ end_ limit query) in
    starts_with
      (ClientSearch (JStr (service_query service query))
         (isoformat start_dt) (isoformat end_dt) (JInt limit))
      (LogsQuerier.search_logs w payload) /\
    starts_with
      (ClientSearch (JStr (raw_query query))
         (isoformat start_dt ++ "Z") (isoformat end_dt ++ "Z") (JInt limit))
      (Opsight.search_logs w payload clock).
Proof.
  intros w clock service start_ end_ limit query start_dt end_dt
    Hsvc Hsne Hene Hps Hpe payload. subst payload.
  destruct (cli_search_payload_fields service start_ end_ limit query)
    as (extra & Hd_svc & Hd_s & Hd_e & Hd_l & Hd_q & Hsq & Hrq & Hextra).
  set (d := Cli.search_payload service start_ end_ limit query) in *.
  assert (Hd : py_truthy (JObj d) = true) by (eapply dict_get_nonempty; eauto).
  rewrite <- Hsq, <- Hrq. split.
  - unfold LogsQuerier.search_logs. apply starts_try. rewrite Hd. cbn [negb].
    unfold py_get. rewrite Hd_svc, Hd_s, Hd_e, Hd_l, Hd_q. mstep.
    unfold py_all. cbn [forallb].
    rewrite (truthy_str _ Hsvc), (truthy_str _ Hsne), (truthy_str _ Hene).
    cbn [andb negb]. mstep.
    unfold py_replace. mstep. rewrite Hps. mstep. rewrite Hpe. mstep.
    assert (Hquery :
              (if py_truthy (match option_map JStr extra with
                             | Some v => v
                             | None => JStr ""
                             end)
               then ("service:" ++ py_str (runtime w) (JStr service)) ++ " "
                      ++ py_str (runtime w)
                           (match option_map JStr extra with
                            | Some v => v
                            | None => JStr ""
                            end)
               else "service:" ++ py_str (runtime w) (JStr service))
              = service_query service extra).
    { unfold service_query.
      destruct extra as [x |]; cbn [option_map py_truthy py_str String.eqb negb].
      - destruct (String.eqb x ""); cbn [negb];
          [now rewrite append_empty_r | now rewrite append_assoc].
      - now rewrite append_empty_r. }
    rewrite Hquery.
    apply starts_try, starts_bind, querier_client_search_starts.
  - unfold Opsight.search_logs. rewrite data_of_dict. apply starts_try.
    unfold py_get, py_in, dict_has. rewrite Hd_s, Hd_e, Hd_l, Hd_q. mstep.
    unfold py_replace. mstep. rewrite Hps. mstep. rewrite Hpe. mstep.
    assert (Hquery :
              match option_map JStr extra with
              | Some v => v
              | None => JStr "datadog-agent"
              end = JStr (raw_query extra)).
    { destruct extra as [x |]; [| reflexivity].
      cbn [option_map raw_query].
      destruct (String.eqb_spec x "") as [-> | Hx]; [congruence | reflexivity]. }
    rewrite Hquery.
    apply starts_try, starts_bind, opsight_client_search_starts.
Qed.

Lemma X20_cli_search_read_by_both_services_witness :
  let payload :=
    JObj (Cli.search_payload "my-app" "2024-01-01T00:00:00Z"
            "2024-01-01T23:59:59Z" 10 None) in
  starts_with
    (ClientSearch (JStr "service:my-app")
       "2024-01-01T00:00:00+00:00" "2024-01-01T23:59:59+00:00" (JInt 10))
    (LogsQuerier.search_logs ref_world payload) /\
  starts_with
    (ClientSearch (JStr "datadog-agent")
       "2024-01-01T00:00:00+00:00Z" "2024-01-01T23:59:59+00:00Z" (JInt 10))
    (Opsight.search_logs ref_world payload (clock_at 2024 1 1 12 0 0)).
Proof.
  apply (X20_cli_search_read_by_both_services ref_world
           (clock_at 2024 1 1 12 0 0) "my-app"
           "2024-01-01T00:00:00Z" "2024-01-01T23:59:59Z" 10 None
           (mkDatetime (clock_at 2024 1 1 0 0 0) (Some 0))
           (mkDatetime (clock_at 2024 1 1 23 59 59) (Some 0)));
    first [discriminate | reflexivity].
Defined.



(** ** Limits that are no numbers *)

(** A relative-range request that passes the validation runs the client
    once and answers around it. *)
Lemma relative_request_runs :
  forall (w : World) (d : dict) (clock : Z) (service tok : string)
         (extra : option string) (delta : timedelta),
    dict_get d "service" = Some (JStr service) ->
    service <> "" ->
    dict_get d "timerange" = Some (JStr tok) ->
    assoc timerange_map tok = Some delta ->
    dict_get d "query" = option_map JStr extra ->
    delta <= clock <= max_wall ->
    let query := service_query service extra in
    let s := isoformat (mkDatetime (clock - delta) None) in
    let e := isoformat (utcnow clock) in
    Opsight.search_logs_with_timerange w (JObj d) clock
    = answered_call (runtime w) "data"
        (Opsight.client_search_logs w (JStr query) s e (requested_limit d 50))
        (relative_envelope query (JStr tok) s e)
        (fun x => "Internal server error: " ++ str_exn (runtime w) x) /\
    LogsQuerier.search_logs_with_timerange w (JObj d) clock
    = answered_call (runtime w) "logs"
        (LogsQuerier.client_search_logs w (JStr query) s e (requested_limit d 50))
        (relative_envelope query (JStr tok) s e)
        (fun x => "Internal server error: " ++ str_exn (runtime w) x).
Proof.
  intros w d clock service tok extra delta Hsvc Hne Htr Htok Hq Hclock query s e.
  subst query s e.
  assert (Hspec : spec_duration tok = Some delta)
    by now rewrite <- timerange_map_spec.
  destruct (spec_duration_bounds _ _ Hspec) as [Hdelta Htokne].
  assert (Hsub : dt_sub (utcnow clock) delta
                 = inr (mkDatetime (clock - delta) None))
    by (apply dt_sub_utcnow; lia).
  assert (Hd : py_truthy (JObj d) = true) by (eapply dict_get_nonempty; eauto).
  assert (Hquery :
            (if py_truthy (match dict_get d "query" with
                           | Some v => v
                           | None => JStr ""
                           end)
             then ("service:" ++ service) ++ " "
                    ++ py_str (runtime w)
                         (match dict_get d "query" with
                          | Some v => v
                          | None => JStr ""
                          end)
             else "service:" ++ service)
            = service_query service extra).
  { rewrite Hq. unfold service_query.
    destruct extra as [x |]; cbn [option_map py_truthy py_str String.eqb negb].
    - destruct (String.eqb x ""); cbn [negb];
        [now rewrite append_empty_r | now rewrite append_assoc].
    - now rewrite append_empty_r. }
  split.
  - unfold Opsight.search_logs_with_timerange.
    rewrite Hd. cbn [negb]. unfold py_get.
    rewrite Hsvc, Htr. mstep.
    unfold py_all. cbn [forallb]. rewrite (truthy_str _ Hne), (truthy_str _ Htokne).
    cbn [andb negb]. unfold timerange_lookup.
    rewrite Htok. mstep. rewrite Hsub. mstep.
    cbn [py_str]. rewrite Hquery. reflexivity.
  - unfold LogsQuerier.search_logs_with_timerange.
    rewrite Hd. cbn [negb]. unfold py_get.
    rewrite Hsvc, Htr. mstep.
    unfold py_all. cbn [forallb]. rewrite (truthy_str _ Hne), (truthy_str _ Htokne).
    cbn [andb negb]. unfold timerange_lookup.
    rewrite Htok. mstep. rewrite Hsub. mstep.
    cbn [py_str]. rewrite Hquery. reflexivity.
Qed.

(** X22.  On the relative-range route, a [limit] that is no number (a
    string, [null], a list, an object) is not caught by any validation.
    opsight calls the client, whose [min(limit, 1000)] raises before any
    request is built: the answer is 500 "Failed to query Datadog: ..." and
    nothing is sent.  logs_querier puts the value into its request as it
    is and sends it. *)
Theorem X22_limit_that_is_no_number :
  forall (w : World) (d : dict) (clock : Z) (service tok : string)
         (extra : option string) (delta : timedelta),
    dict_get d "service" = Some (JStr service) ->
    service <> "" ->
    dict_get d "timerange" = Some (JStr tok) ->
    assoc timerange_map tok = Some delta ->
    dict_get d "query" = option_map JStr extra ->
    delta <= clock <= max_wall ->
    limit_value (requested_limit d 50) = None ->
    exists q s e msg,
      Opsight.search_logs_with_timerange w (JObj d) clock
      = ([ClientSearch q s e (requested_limit d 50)],
         inr (error_response 500 ("Failed to query Datadog: " ++ msg))) /\
      trace (LogsQuerier.search_logs_with_timerange w (JObj d) clock)
      = [ClientSearch q s e (requested_limit d 50);
         HttpPost (v1_search_url w) (v1_payload q s e (requested_limit d 50))].
Proof.
  intros w d clock service tok extra delta Hsvc Hne Htr Htok Hq Hclock Hlim.
  destruct (relative_request_runs w d clock service tok extra delta
              Hsvc Hne Htr Htok Hq Hclock) as [Hops Hqr].
  cbv zeta in Hops, Hqr.
  set (q := JStr (service_query service extra)) in *.
  set (s := isoformat (mkDatetime (clock - delta) None)) in *.
  set (e := isoformat (utcnow clock)) in *.
  set (l := requested_limit d 50) in *.
  assert (Hclient : exists x,
             Opsight.client_search_logs w q s e l = ([ClientSearch q s e l], inl x)).
  { unfold Opsight.client_search_logs. rewrite bind_emit.
    destruct l as [| b | z | s' | l' | d']; try discriminate Hlim;
      unfold py_min; mstep; eexists; reflexivity. }
  destruct Hclient as [x Hclient].
  exists q, s, e, (str_exn (runtime w) x). split.
  - rewrite Hops, Hclient. apply answered_call_raised.
  - rewrite Hqr.
    destruct (querier_client_cases w q s e l)
      as [[y H] | (resp & n & code & H & Hn & _)]; rewrite H.
    + now rewrite answered_call_raised.
    + now rewrite (answered_call_returned _ _ _ _ _ _ _ Hn).
Qed.

Lemma X22_limit_that_is_no_number_witness :
  exists q s e msg,
    let d := [("service", JStr "my-app"); ("timerange", JStr "1h");
              ("limit", JStr "ten")] in
    Opsight.search_logs_with_timerange ref_world (JObj d) (clock_at 2024 1 1 12 0 0)
    = ([ClientSearch q s e (JStr "ten")],
       inr (error_response 500 ("Failed to query Datadog: " ++ msg))) /\
    trace (LogsQuerier.search_logs_with_timerange ref_world (JObj d)
             (clock_at 2024 1 1 12 0 0))
    = [ClientSearch q s e (JStr "ten");
       HttpPost (v1_search_url ref_world) (v1_payload q s e (JStr "ten"))].
Proof.
  apply (X22_limit_that_is_no_number ref_world
           [("service", JStr "my-app"); ("timerange", JStr "1h");
            ("limit", JStr "ten")]
           (clock_at 2024 1 1 12 0 0) "my-app" "1h" None (td_hours 1)).
  - reflexivity.
  - discriminate.
  - reflexivity.
  - reflexivity.
  - reflexivity.
  - vm_compute. split; discriminate.
  - reflexivity.
Defined.
